(** * Nexus Learn: the WebSocket connection registry and its message loop

    A shallow embedding of [ConnectionManager] and [websocket_endpoint] as
    they are written in

    - [src/nexus_learn_backend/app/main.py] (module [Backend] below), and
    - [src/main.py]                         (module [Unified] below).

    The two files share [__init__], [connect] and the body of the receive
    loop word for word; they differ in [disconnect] (only [src/main.py]
    guards [list.remove] with [try/except ValueError]) and in whether the
    endpoint forwards [user_id] to the manager. *)

From Stdlib Require Import ZArith String List Lia.
From stdpp Require Import gmap strings list fin_maps.

Local Open Scope string_scope.
Local Open Scope list_scope.
Local Open Scope Z_scope.

(** ** Python values the code handles *)

(** A [WebSocket] object. Starlette compares and hashes connections by
    object identity, so a handle is its identity. *)
Definition WebSocket := positive.

(** The exception classes that can travel through the code. Only
    [WebSocketDisconnect] has a handler in [websocket_endpoint]; only
    [ValueError] has one in [src/main.py]'s [disconnect]. *)
Inductive exn : Set :=
| WebSocketDisconnect
| ValueError
| AttributeError
| JSONDecodeError
| RuntimeError.

(** The outcome of a call that may raise. *)
Inductive res (A : Type) : Type :=
| Ok (a : A)
| Err (e : exn).
Arguments Ok {A} a.
Arguments Err {A} e.

(** What [receive_json] can hand to the loop: any decoded JSON value. A
    [JDict] is a Python [dict]: its keys are pairwise distinct and kept in
    insertion order. *)
#[warnings="-register-all"]
Inductive json : Type :=
| JNull
| JBool (b : bool)
| JInt (n : Z)
| JFloat (lexeme : string)
| JStr (s : string)
| JList (items : list json)
| JDict (items : list (string * json)).

(** [data.get(key)]: defined on dictionaries only; any other JSON value has
    no attribute [get]. A missing key gives Python's [None], here the option's. *)
Definition get (data : json) (key : string) : res (option json) :=
  match data with
  | JDict items =>
      Ok (snd <$> List.find (fun kv => bool_decide (fst kv = key)) items)
  | _ => Err AttributeError
  end.

(** [v == s] for the value of [data.get(...)] and a string literal. *)
Definition eq_str (v : option json) (s : string) : bool :=
  match v with
  | Some (JStr s') => bool_decide (s' = s)
  | _ => false
  end.

(** Truthiness of [user_id: int = None] in [if user_id:]. *)
Definition truthy (user_id : option Z) : bool :=
  match user_id with
  | None => false
  | Some n => negb (n =? 0)
  end.

(** [l.remove(x)]: drops the first item equal to [x]; [None] stands for the
    [ValueError] Python raises when there is none. *)
Fixpoint list_remove (x : WebSocket) (l : list WebSocket)
  : option (list WebSocket) :=
  match l with
  | [] => None
  | y :: l' =>
      if decide (y = x) then Some l'
      else cons y <$> list_remove x l'
  end.

(** ** The registry *)

Record ConnectionManager : Type := {
  active_connections : gmap string (list WebSocket);
  user_connections : gmap Z WebSocket
}.

(** [ConnectionManager.__init__], and the module-level [manager]. *)
Definition manager : ConnectionManager :=
  {| active_connections := ∅; user_connections := ∅ |}.

(** What the code asks of a socket or of the registry, in program order:
    [websocket.accept()], [websocket.send_json(message)] and the two
    manager calls of the endpoint. What [receive_json] delivers is an input
    (see [turn]); logging is not modelled. *)
Inductive event : Type :=
| Accept (websocket : WebSocket)
| SendJson (websocket : WebSocket) (message : json)
| CallConnect (websocket : WebSocket) (client_id : string)
    (user_id : option Z)
| CallDisconnect (websocket : WebSocket) (client_id : string)
    (user_id : option Z).

(** The effect of one method call: the registry it leaves, the socket
    operations it performed, and the exception it raised, if any. *)
Record result : Type := {
  state : ConnectionManager;
  effects : list event;
  raised : option exn
}.

(** [ConnectionManager.connect], the same in both files. [accept] is what
    [await websocket.accept()] does: [None] when it returns, [Some e] when
    it raises [e], in which case nothing after it runs. *)
Definition connect (accept : option exn) (self : ConnectionManager)
    (websocket : WebSocket) (client_id : string) (user_id : option Z)
  : result :=
  match accept with
  | Some e =>
      {| state := self; effects := [Accept websocket]; raised := Some e |}
  | None =>
      let conns := default [] (active_connections self !! client_id) in
      let active := <[client_id := conns ++ [websocket]]>
                      (active_connections self) in
      let users :=
        match user_id with
        | Some n =>
            if truthy user_id then <[n := websocket]> (user_connections self)
            else user_connections self
        | None => user_connections self
        end in
      {| state := {| active_connections := active;
                     user_connections := users |};
         effects := [Accept websocket];
         raised := None |}
  end.

(** The second statement of [disconnect], the same in both files:
    [if user_id and user_id in self.user_connections:
         del self.user_connections[user_id]]. *)
Definition del_user (users : gmap Z WebSocket) (user_id : option Z)
  : gmap Z WebSocket :=
  match user_id with
  | Some n =>
      if truthy user_id && bool_decide (is_Some (users !! n))
      then delete n users
      else users
  | None => users
  end.

(** After [remove]: [if not self.active_connections[client_id]:
    del self.active_connections[client_id]]. *)
Definition store_or_del (active : gmap string (list WebSocket))
    (client_id : string) (conns : list WebSocket)
  : gmap string (list WebSocket) :=
  match conns with
  | [] => delete client_id active
  | _ :: _ => <[client_id := conns]> active
  end.

(** ** Sequences of registry calls *)

Inductive call : Type :=
| Register (accept : option exn) (websocket : WebSocket)
    (client_id : string) (user_id : option Z)
| Unregister (websocket : WebSocket) (client_id : string)
    (user_id : option Z).

Section Calls.

Variable disconnect :
  ConnectionManager -> WebSocket -> string -> option Z -> result.

Definition apply_call (self : ConnectionManager) (c : call) : result :=
  match c with
  | Register accept websocket client_id user_id =>
      connect accept self websocket client_id user_id
  | Unregister websocket client_id user_id =>
      disconnect self websocket client_id user_id
  end.

(** An exception ends the task that made the call, not the process: the
    next call finds the registry as the previous one left it. *)
Definition run_calls (self : ConnectionManager) (calls : list call)
  : ConnectionManager :=
  fold_left (fun m c => state (apply_call m c)) calls self.

End Calls.

(** ** The framework's rule for [accept] *)

(** [websocket.accept()] is Starlette's: it sends ["websocket.accept"],
    which [WebSocket.send] lets through only while the websocket's
    [application_state] is [CONNECTING], and that send moves the state on
    for good. So once [accept()] has returned on a websocket object, every
    later [accept()] on the same object raises [RuntimeError]; on a
    websocket on which it has not yet returned, it does what the transport
    does. [accepted] is the set of websockets on which it has returned. *)
Definition accept_on (accepted : gset WebSocket) (websocket : WebSocket)
    (transport : option exn) : option exn :=
  if decide (websocket ∈ accepted) then Some RuntimeError else transport.

(** The registry together with the websockets already accepted. *)
Record server : Type := {
  serving : ConnectionManager;
  accepted : gset WebSocket
}.

(** The process at start: the empty registry, nothing accepted. *)
Definition boot : server := {| serving := manager; accepted := ∅ |}.

Section Server.

Variable disconnect :
  ConnectionManager -> WebSocket -> string -> option Z -> result.

(** One registry call on the server. In [Register transport ...] the first
    field is what the transport does if the websocket is still to be
    accepted; what [accept()] then does follows from [accept_on]. *)
Definition serve_call (s : server) (c : call) : server :=
  match c with
  | Register transport websocket client_id user_id =>
      let accept := accept_on (accepted s) websocket transport in
      {| serving :=
           state (connect accept (serving s) websocket client_id user_id);
         accepted :=
           match accept with
           | None => {[websocket]} ∪ accepted s
           | Some _ => accepted s
           end |}
  | Unregister websocket client_id user_id =>
      {| serving := state (disconnect (serving s) websocket client_id user_id);
         accepted := accepted s |}
  end.

Definition serve (s : server) (calls : list call) : server :=
  fold_left serve_call calls s.

End Server.

(** ** The per-connection loop *)

(** One iteration as the transport and the clock answer it: what
    [receive_json] gives, what [datetime.utcnow().isoformat()] reads, and
    what [send_json] does ([None]: it returns). *)
Record turn : Type := {
  received : res json;
  utcnow_isoformat : string;
  sent : option exn
}.

Inductive exit : Type :=
| Awaiting
| Raise (e : exn).

(** [while True: ...] of [websocket_endpoint], the same in both files. The
    loop has no [break] and no [return]: it is left by an exception, or it
    is still awaiting [receive_json] when the script ends. *)
Fixpoint receive_loop (websocket : WebSocket) (script : list turn)
  : list event * exit :=
  match script with
  | [] => ([], Awaiting)
  | t :: script' =>
      match received t with
      | Err e => ([], Raise e)
      | Ok data =>
          match get data "type" with
          | Err e => ([], Raise e)
          | Ok ty =>
              let message :=
                if eq_str ty "ping"
                then JDict [("type", JStr "pong");
                            ("timestamp", JStr (utcnow_isoformat t))]
                else JDict [("type", JStr "echo"); ("data", data)] in
              match sent t with
              | Some e => ([SendJson websocket message], Raise e)
              | None =>
                  let '(log, x) := receive_loop websocket script' in
                  (SendJson websocket message :: log, x)
              end
          end
      end
  end.

Inductive status : Type :=
| Running
| Returned
| Propagated (e : exn).

Record session : Type := {
  registry : ConnectionManager;
  events : list event;
  outcome : status
}.

Section Endpoint.

Variable disconnect :
  ConnectionManager -> WebSocket -> string -> option Z -> result.

(** [websocket_endpoint]: [connect] stands before the [try]; the only
    handler is [except WebSocketDisconnect]. *)
Definition endpoint (self : ConnectionManager) (accept : option exn)
    (websocket : WebSocket) (client_id : string) (user_id : option Z)
    (script : list turn) : session :=
  let c := connect accept self websocket client_id user_id in
  let entered := CallConnect websocket client_id user_id :: effects c in
  match raised c with
  | Some e =>
      {| registry := state c; events := entered; outcome := Propagated e |}
  | None =>
      let '(log, x) := receive_loop websocket script in
      match x with
      | Awaiting =>
          {| registry := state c; events := entered ++ log;
             outcome := Running |}
      | Raise WebSocketDisconnect =>
          let d := disconnect (state c) websocket client_id user_id in
          {| registry := state d;
             events := entered ++ log
                       ++ CallDisconnect websocket client_id user_id
                       :: effects d;
             outcome := match raised d with
                        | Some e => Propagated e
                        | None => Returned
                        end |}
      | Raise e =>
          {| registry := state c; events := entered ++ log;
             outcome := Propagated e |}
      end
  end.

End Endpoint.

(** ** The two files *)

Module Backend.

(** [src/nexus_learn_backend/app/main.py], [ConnectionManager.disconnect]:
    [remove] is not guarded, so its [ValueError] leaves the method before
    anything has been changed. *)
Definition disconnect (self : ConnectionManager) (websocket : WebSocket)
    (client_id : string) (user_id : option Z) : result :=
  match active_connections self !! client_id with
  | Some conns =>
      match list_remove websocket conns with
      | None => {| state := self; effects := []; raised := Some ValueError |}
      | Some conns' =>
          {| state :=
               {| active_connections :=
                    store_or_del (active_connections self) client_id conns';
                  user_connections :=
                    del_user (user_connections self) user_id |};
             effects := [];
             raised := None |}
      end
  | None =>
      {| state :=
           {| active_connections := active_connections self;
              user_connections := del_user (user_connections self) user_id |};
         effects := [];
         raised := None |}
  end.

(** [websocket_endpoint(websocket, client_id, user_id = None)]: the
    manager is called with [user_id] both times. *)
Definition websocket_endpoint := endpoint disconnect.

End Backend.

Module Unified.

(** [src/main.py], [ConnectionManager.disconnect]: the [ValueError] of
    [remove] is caught and passed over, and the method goes on to the
    [user_id] statement. *)
Definition disconnect (self : ConnectionManager) (websocket : WebSocket)
    (client_id : string) (user_id : option Z) : result :=
  let active :=
    match active_connections self !! client_id with
    | Some conns =>
        match list_remove websocket conns with
        | None => active_connections self
        | Some conns' =>
            store_or_del (active_connections self) client_id conns'
        end
    | None => active_connections self
    end in
  {| state := {| active_connections := active;
                 user_connections :=
                   del_user (user_connections self) user_id |};
     effects := [];
     raised := None |}.

(** [websocket_endpoint(websocket, client_id)]: the manager is called
    without [user_id] both times. *)
Definition websocket_endpoint (self : ConnectionManager)
    (accept : option exn) (websocket : WebSocket) (client_id : string)
    (script : list turn) : session :=
  endpoint disconnect self accept websocket client_id None script.

End Unified.

(** ** Observations used in the statements *)

(** Registrations under one [user_id]: any websockets and groups, every
    [accept] returning. *)
Definition registrations (n : Z) (regs : list (WebSocket * string))
  : list call :=
  map (fun r => Register None (fst r) (snd r) (Some n)) regs.

(** The registry after [c1] and then [c2] were registered under the same
    [user_id], every [accept] returning. *)
Definition registered_twice (self : ConnectionManager)
    (c1 : WebSocket) (g1 : string) (c2 : WebSocket) (g2 : string) (n : Z)
  : ConnectionManager :=
  state (connect None (state (connect None self c1 g1 (Some n)))
           c2 g2 (Some n)).

(** How many times [websocket] occurs in [active_connections[client_id]]
    (0 when the key is absent). *)
Definition entries (self : ConnectionManager) (client_id : string)
    (websocket : WebSocket) : nat :=
  length (filter (fun w => w = websocket)
                 (default [] (active_connections self !! client_id))).

(** What holds of every server the calls can reach: no websocket has more
    than one entry in a group, and one not yet accepted has none. *)
Definition one_entry_each (s : server) : Prop :=
  forall (g : string) (w : WebSocket),
    (entries (serving s) g w <= 1)%nat
    /\ (w ∉ accepted s -> entries (serving s) g w = 0%nat).

(** No key of [active_connections] holds an empty list. *)
Definition no_empty_group (self : ConnectionManager) : Prop :=
  map_Forall (fun _ conns => conns <> []) (active_connections self).

Definition is_disconnect (ev : event) : bool :=
  match ev with
  | CallDisconnect _ _ _ => true
  | _ => false
  end.

(** How often [manager.disconnect] was called in a session. *)
Definition disconnect_calls (s : session) : nat :=
  length (List.filter is_disconnect (events s)).

Definition send_target (ev : event) : option WebSocket :=
  match ev with
  | SendJson websocket _ => Some websocket
  | _ => None
  end.

(** The dictionary the loop passes to [send_json] for the dictionary [data]
    read at clock reading [now]: the two branches of the [if] in the loop. *)
Definition reply_to (data : json) (now : string) : json :=
  match get data "type" with
  | Ok ty =>
      if eq_str ty "ping"
      then JDict [("type", JStr "pong"); ("timestamp", JStr now)]
      else JDict [("type", JStr "echo"); ("data", data)]
  | Err _ => JNull
  end.

(** A turn in which [receive_json] gives a dictionary and [send_json]
    returns. *)
Definition served (t : turn) : option json :=
  match received t, sent t with
  | Ok (JDict items), None =>
      Some (reply_to (JDict items) (utcnow_isoformat t))
  | _, _ => None
  end.

(** ** [app/database.py]: the [Database] connection object *)

(** What can be raised around the database calls, by the one distinction
    the handlers make: [except Exception] catches all but
    [NotAnException], a bare [except:] catches all four. [DidNotYield] is
    the [RuntimeError] that [contextlib] raises when a generator ends
    without having yielded. *)
Inductive raise_kind : Set :=
| DatabaseError
| OtherException
| DidNotYield
| NotAnException.

(** Whether [except Exception] catches it ([NotAnException] stands for a
    [BaseException] outside [Exception], such as [asyncio.CancelledError]). *)
Definition is_Exception (k : raise_kind) : bool :=
  match k with
  | NotAnException => false
  | _ => true
  end.

Module Db.

Definition MotorClient := positive.

(** [self.db] is the database of a client, named by that client. *)
Record Database : Type := {
  client : option MotorClient;
  db : option MotorClient;
  _connected : bool
}.

(** [Database.__init__]. *)
Definition init : Database :=
  {| client := None; db := None; _connected := false |}.

(** The statements of [connect] that call the driver, in program order. *)
Inductive connect_step : Set :=
| NewClient
| SelectDatabase
| IsMaster
| CreateIndexes.

(** What the driver does during one [connect]: the client object the
    constructor would return, and the first step that raises, if any. *)
Record connect_env : Type := {
  new_client : MotorClient;
  failure : option (connect_step * raise_kind)
}.

(** [except Exception as e: raise DatabaseError(...)] in [connect]. *)
Definition wrapped (k : raise_kind) : raise_kind :=
  if is_Exception k then DatabaseError else k.

(** [Database.connect]; [_create_indexes] re-raises what it catches, so it
    is one step here. Assignments made before the failing step stay. *)
Definition connect (env : connect_env) (self : Database)
  : Database * option raise_kind :=
  match failure env with
  | Some (NewClient, k) => (self, Some (wrapped k))
  | Some (SelectDatabase, k) =>
      ({| client := Some (new_client env);
          db := db self;
          _connected := _connected self |},
       Some (wrapped k))
  | Some (IsMaster, k) | Some (CreateIndexes, k) =>
      ({| client := Some (new_client env);
          db := Some (new_client env);
          _connected := _connected self |},
       Some (wrapped k))
  | None =>
      ({| client := Some (new_client env);
          db := Some (new_client env);
          _connected := true |},
       None)
  end.

(** [Database.disconnect]; [close] is what [self.client.close()] does. *)
Definition disconnect (close : option raise_kind) (self : Database)
  : Database * option raise_kind :=
  match client self with
  | Some c =>
      match close with
      | Some k => (self, Some k)
      | None =>
          ({| client := Some c; db := db self; _connected := false |}, None)
      end
  | None => (self, None)
  end.

(** [Database.ping]; [command] is what [self.client.admin.command('ping')]
    does. With no client the attribute access on [None] raises, and the
    bare [except:] turns that, like any other failure, into [False]. *)
Definition ping (command : option raise_kind) (self : Database) : bool :=
  match client self with
  | Some _ =>
      match command with
      | None => true
      | Some _ => false
      end
  | None => false
  end.

(** The property [Database.is_connected]. *)
Definition is_connected (self : Database) : bool :=
  _connected self && bool_decide (client self <> None).

Inductive call : Type :=
| Connect (env : connect_env)
| Disconnect (close : option raise_kind).

Definition apply (self : Database) (c : call) : Database :=
  match c with
  | Connect env => fst (connect env self)
  | Disconnect close => fst (disconnect close self)
  end.

End Db.

(** ** Application start-up and the health route *)

(** What [lifespan] does that the outside can see. *)
Inductive lifespan_event : Set :=
| DbConnect
| Yield
| DbDisconnect.

#[global] Instance lifespan_event_eq_dec : EqDecision lifespan_event.
Proof. solve_decision. Defined.

(** One run of [lifespan]: the module-level [db] it leaves, what it did,
    and what it let out. *)
Record lifespan_run : Type := {
  db_global : option Db.Database;
  steps : list lifespan_event;
  propagated : option raise_kind
}.

(** [@asynccontextmanager] over one run of the generator it decorates:
    [__aenter__] turns a generator that ended without yielding, and without
    raising, into [RuntimeError("generator didn't yield")]; whatever else
    the generator lets out, before or after its [yield], the context
    manager lets out too, and what the generator swallows stays
    swallowed. *)
Definition asynccontextmanager (generator : lifespan_run) : lifespan_run :=
  {| db_global := db_global generator;
     steps := steps generator;
     propagated :=
       match propagated generator with
       | Some k => Some k
       | None =>
           if bool_decide (Yield ∈ steps generator) then None
           else Some DidNotYield
       end |}.

(** [db_status] in [health_check], the same in both files. The value
    [ping] returns is not looked at, and [ping] itself never raises, so
    the branch [except: db_status = "error"] is never taken. *)
Definition db_status (db : option Db.Database) (command : option raise_kind)
  : string :=
  match db with
  | None => "disconnected"
  | Some d => let _ := Db.ping command d in "connected"
  end.

Definition features : json :=
  JDict [("real_time_sync", JBool true);
         ("media_streaming", JBool true);
         ("advanced_analytics", JBool true);
         ("telegram_integration", JBool true)].

Module BackendApp.

(** [src/nexus_learn_backend/app/main.py], the generator [lifespan] is
    written as: [env] is what the driver does during [db.connect()], [body]
    what is thrown in at the [yield] ([None]: the application shuts down
    normally), [close] what [client.close()] does in [db.disconnect()]. The
    handler re-raises; an exception from the [finally] block replaces the
    one in flight. *)
Definition lifespan_generator (env : Db.connect_env)
    (body : option raise_kind) (close : option raise_kind) : lifespan_run :=
  let '(d1, r) := Db.connect env Db.init in
  let '(d2, r2) := Db.disconnect close d1 in
  match r with
  | Some k =>
      {| db_global := Some d2;
         steps := [DbConnect; DbDisconnect];
         propagated := Some (default k r2) |}
  | None =>
      {| db_global := Some d2;
         steps := [DbConnect; Yield; DbDisconnect];
         propagated := match r2 with
                       | Some k2 => Some k2
                       | None => body
                       end |}
  end.

(** [lifespan], as the decorator leaves it. *)
Definition lifespan (env : Db.connect_env) (body : option raise_kind)
    (close : option raise_kind) : lifespan_run :=
  asynccontextmanager (lifespan_generator env body close).

(** [health_check]: nothing in the outer [try] raises, so its handler is
    not reached. *)
Definition health_check (db : option Db.Database)
    (command : option raise_kind) (now : string) : json :=
  let status := db_status db command in
  JDict [("status",
          JStr (if bool_decide (status = "connected")
                then "healthy" else "partial"));
         ("timestamp", JStr now);
         ("version", JStr "2.0.0");
         ("components", JDict [("database", JStr status);
                               ("websocket", JStr "active")]);
         ("features", features)].

End BackendApp.

Module UnifiedApp.

(** [src/main.py], the generator [lifespan] is written as, with
    [app.database] importable: the handler logs and does not re-raise, and
    [db.disconnect()] sits in its own [try/except: pass]. *)
Definition lifespan_generator (env : Db.connect_env)
    (body : option raise_kind) (close : option raise_kind) : lifespan_run :=
  let '(d1, r) := Db.connect env Db.init in
  let d2 := fst (Db.disconnect close d1) in
  let let_out (k : raise_kind) : option raise_kind :=
    if is_Exception k then None else Some k in
  match r with
  | Some k =>
      {| db_global := Some d2;
         steps := [DbConnect; DbDisconnect];
         propagated := let_out k |}
  | None =>
      {| db_global := Some d2;
         steps := [DbConnect; Yield; DbDisconnect];
         propagated := match body with
                       | Some k => let_out k
                       | None => None
                       end |}
  end.

(** [lifespan], as the decorator leaves it: a failed [connect] that the
    generator swallowed comes out of [__aenter__] as [DidNotYield]. *)
Definition lifespan (env : Db.connect_env) (body : option raise_kind)
    (close : option raise_kind) : lifespan_run :=
  asynccontextmanager (lifespan_generator env body close).

(** [health_check], with [app.database] importable. *)
Definition health_check (db : option Db.Database)
    (command : option raise_kind) (now : string) : json :=
  let status := db_status db command in
  JDict [("status", JStr "healthy");
         ("timestamp", JStr now);
         ("version", JStr "2.0.0");
         ("deployment", JStr "render");
         ("components", JDict [("database", JStr status);
                               ("websocket", JStr "active");
                               ("static_files", JStr "mounted")]);
         ("features", features)].

End UnifiedApp.

(** [d[k1][k2]] for a dictionary of dictionaries, [None] where a key is
    missing or a value is not a dictionary. *)
Definition get_in (d : json) (k1 k2 : string) : option json :=
  match get d k1 with
  | Ok (Some inner) =>
      match get inner k2 with
      | Ok v => v
      | Err _ => None
      end
  | _ => None
  end.

(** ** [app/config.py]: the two validators of [Settings] *)

From Stdlib Require Import Ascii.

(** [v.split(",")]: the pieces between the commas, empty ones included;
    always at least one piece. *)
Fixpoint split_commas (v : string) : list string :=
  match v with
  | EmptyString => [EmptyString]
  | String c rest =>
      if bool_decide (c = ","%char) then EmptyString :: split_commas rest
      else
        match split_commas rest with
        | piece :: pieces => String c piece :: pieces
        | [] => [String c EmptyString]
        end
  end.

(** How many commas [v] holds. *)
Fixpoint commas (v : string) : nat :=
  match v with
  | EmptyString => 0%nat
  | String c rest =>
      ((if bool_decide (c = ","%char) then 1 else 0) + commas rest)%nat
  end.

Module Config.

Section Validators.

(** Python's [str.strip()] and [int(...)] ([None]: [ValueError]). *)
Variable strip : string -> string.
Variable int : string -> option Z.

(** [Settings.parse_allowed_hosts]: a [str] is cut at the commas and each
    piece stripped; anything else is handed back. *)
Definition parse_allowed_hosts (v : json) : json :=
  match v with
  | JStr s => JList (map (fun host => JStr (strip host)) (split_commas s))
  | _ => v
  end.

(** The pieces the comprehension of [parse_admin_ids] keeps:
    [if id.strip()]. *)
Definition kept (pieces : list string) : list string :=
  List.filter (fun id => negb (bool_decide (strip id = ""))) pieces.

(** [int(id.strip())] over the kept pieces, left to right, stopping at the
    first [ValueError]. *)
Fixpoint ints (pieces : list string) : res (list json) :=
  match pieces with
  | [] => Ok []
  | id :: pieces' =>
      match int (strip id) with
      | None => Err ValueError
      | Some n =>
          match ints pieces' with
          | Ok ns => Ok (JInt n :: ns)
          | Err e => Err e
          end
      end
  end.

(** [Settings.parse_admin_ids]. *)
Definition parse_admin_ids (v : json) : res json :=
  match v with
  | JStr s =>
      match ints (kept (split_commas s)) with
      | Ok ns => Ok (JList ns)
      | Err e => Err e
      end
  | _ => Ok v
  end.

End Validators.

End Config.

(** * Properties *)

(** ** Python's tests and list operations *)

Lemma truthy_nonzero (n : Z) : n <> 0 -> truthy (Some n) = true.
Proof. intros Hn. unfold truthy. by apply negb_true_iff, Z.eqb_neq. Qed.

Lemma del_user_falsy (users : gmap Z WebSocket) (user_id : option Z) :
  truthy user_id = false -> del_user users user_id = users.
Proof.
  intros Hf. unfold del_user. destruct user_id as [n|]; [|done].
  by rewrite Hf.
Qed.

Lemma del_user_nonzero (users : gmap Z WebSocket) (n : Z) :
  n <> 0 -> del_user users (Some n) = delete n users.
Proof.
  intros Hn. unfold del_user. rewrite (truthy_nonzero n Hn).
  case_bool_decide as Hin; [done|].
  symmetry. apply delete_id. by apply eq_None_not_Some.
Qed.

Lemma list_remove_None (x : WebSocket) (l : list WebSocket) :
  list_remove x l = None <-> x ∉ l.
Proof.
  induction l as [|y l IH]; simpl.
  - split; [intros _; apply not_elem_of_nil | done].
  - case_decide as Hyx.
    + subst y. split; [done | intros Hn; destruct Hn; left].
    + rewrite not_elem_of_cons, <- IH.
      destruct (list_remove x l); simpl; split; try done.
      by intros [_ ?].
Qed.

Lemma list_remove_elem_of (x : WebSocket) (l : list WebSocket) :
  x ∈ l -> is_Some (list_remove x l).
Proof.
  intros Hin. destruct (list_remove x l) eqn:E; [by eexists|].
  by apply list_remove_None in E.
Qed.

Lemma list_remove_length (x : WebSocket) (l l' : list WebSocket) :
  list_remove x l = Some l' -> length l = S (length l').
Proof.
  revert l'. induction l as [|y l IH]; intros l'; simpl; [done|].
  case_decide; [by intros [= ->]|].
  destruct (list_remove x l) as [k|]; simpl; [|done].
  intros [= <-]. simpl. f_equal. by apply IH.
Qed.

Lemma list_remove_nil_iff (x : WebSocket) (l : list WebSocket) :
  list_remove x l = Some [] <-> l = [x].
Proof.
  split.
  - intros Hr. pose proof (list_remove_length _ _ _ Hr) as Hlen.
    destruct l as [|y [|z l]]; simpl in *; try done.
    by case_decide; simplify_eq.
  - intros ->. simpl. by rewrite decide_True.
Qed.

Lemma ConnectionManager_eq (m1 m2 : ConnectionManager) :
  active_connections m1 = active_connections m2 ->
  user_connections m1 = user_connections m2 ->
  m1 = m2.
Proof. destruct m1, m2. simpl. congruence. Qed.

(** ** [connect] *)

Lemma connect_active (self : ConnectionManager) (websocket : WebSocket)
    (client_id : string) (user_id : option Z) :
  active_connections (state (connect None self websocket client_id user_id))
  = <[client_id :=
        default [] (active_connections self !! client_id) ++ [websocket]]>
      (active_connections self).
Proof. done. Qed.

Lemma connect_users_nonzero (self : ConnectionManager) (websocket : WebSocket)
    (client_id : string) (n : Z) :
  n <> 0 ->
  user_connections (state (connect None self websocket client_id (Some n)))
  = <[n := websocket]> (user_connections self).
Proof.
  intros Hn. unfold connect. cbn [state user_connections].
  by rewrite (truthy_nonzero n Hn).
Qed.

Lemma connect_refused (e : exn) (self : ConnectionManager)
    (websocket : WebSocket) (client_id : string) (user_id : option Z) :
  state (connect (Some e) self websocket client_id user_id) = self.
Proof. done. Qed.

Lemma entries_connect (self : ConnectionManager) (websocket : WebSocket)
    (client_id : string) (user_id : option Z) :
  entries (state (connect None self websocket client_id user_id))
          client_id websocket
  = S (entries self client_id websocket).
Proof.
  unfold entries. rewrite connect_active, lookup_insert_eq. simpl.
  rewrite filter_app, length_app, filter_cons_True by done.
  simpl. lia.
Qed.

Lemma connect_falsy_users (accept : option exn) (self : ConnectionManager)
    (websocket : WebSocket) (client_id : string) (user_id : option Z) :
  truthy user_id = false ->
  user_connections (state (connect accept self websocket client_id user_id))
  = user_connections self.
Proof.
  intros Hf. unfold connect. destruct accept; [done|].
  cbn [state user_connections]. rewrite Hf. by destruct user_id.
Qed.

(** ** [disconnect] *)

Lemma unified_disconnect_users (self : ConnectionManager)
    (websocket : WebSocket) (client_id : string) (user_id : option Z) :
  user_connections (state (Unified.disconnect self websocket client_id user_id))
  = del_user (user_connections self) user_id.
Proof. done. Qed.

Lemma unified_disconnect_returns (self : ConnectionManager)
    (websocket : WebSocket) (client_id : string) (user_id : option Z) :
  raised (Unified.disconnect self websocket client_id user_id) = None.
Proof. done. Qed.

Lemma backend_disconnect_users (self : ConnectionManager)
    (websocket : WebSocket) (client_id : string) (user_id : option Z) :
  raised (Backend.disconnect self websocket client_id user_id) = None ->
  user_connections (state (Backend.disconnect self websocket client_id user_id))
  = del_user (user_connections self) user_id.
Proof.
  unfold Backend.disconnect.
  destruct (active_connections self !! client_id) as [conns|]; [|done].
  by destruct (list_remove websocket conns).
Qed.

Lemma backend_disconnect_raises (self : ConnectionManager)
    (websocket : WebSocket) (client_id : string) (user_id : option Z)
    (e : exn) :
  raised (Backend.disconnect self websocket client_id user_id) = Some e ->
  e = ValueError
  /\ state (Backend.disconnect self websocket client_id user_id) = self
  /\ exists conns, active_connections self !! client_id = Some conns
                   /\ websocket ∉ conns.
Proof.
  unfold Backend.disconnect.
  destruct (active_connections self !! client_id) as [conns|]; [|done].
  destruct (list_remove websocket conns) eqn:E; [done|].
  simpl. intros [= <-]. repeat split; [].
  exists conns. split; [done|]. by apply list_remove_None.
Qed.

Lemma backend_disconnect_member (self : ConnectionManager)
    (websocket : WebSocket) (client_id : string) (user_id : option Z)
    (conns : list WebSocket) :
  active_connections self !! client_id = Some conns ->
  websocket ∈ conns ->
  raised (Backend.disconnect self websocket client_id user_id) = None.
Proof.
  intros Hg Hin. unfold Backend.disconnect. rewrite Hg.
  by destruct (list_remove_elem_of _ _ Hin) as [k ->].
Qed.

(** C10. A [user_id] of 0 is handled like no [user_id] at all: [connect]
    and both versions of [disconnect] do with [Some 0] exactly what they do
    with [None], and none of them changes [user_connections]. *)
Theorem user_id_zero_is_treated_as_absent (accept : option exn)
    (self : ConnectionManager) (websocket : WebSocket) (client_id : string) :
  (connect accept self websocket client_id (Some 0)
   = connect accept self websocket client_id None
   /\ user_connections
        (state (connect accept self websocket client_id (Some 0)))
      = user_connections self)
  /\ (Backend.disconnect self websocket client_id (Some 0)
      = Backend.disconnect self websocket client_id None
      /\ user_connections
           (state (Backend.disconnect self websocket client_id (Some 0)))
         = user_connections self)
  /\ (Unified.disconnect self websocket client_id (Some 0)
      = Unified.disconnect self websocket client_id None
      /\ user_connections
           (state (Unified.disconnect self websocket client_id (Some 0)))
         = user_connections self).
Proof.
  split; [|split].
  - split; [by destruct accept | by apply connect_falsy_users].
  - split; [done|]. unfold Backend.disconnect.
    destruct (active_connections self !! client_id) as [conns|]; [|done].
    by destruct (list_remove websocket conns).
  - split; done.
Qed.

Lemma run_calls_app (disconnect :
      ConnectionManager -> WebSocket -> string -> option Z -> result)
    (self : ConnectionManager) (xs ys : list call) :
  run_calls disconnect self (xs ++ ys)
  = run_calls disconnect (run_calls disconnect self xs) ys.
Proof. apply fold_left_app. Qed.

(** C5, as the code has it. For every [user_id] other than 0, a [connect]
    whose [accept] returns sets [user_connections[user_id]] to the new
    websocket over whatever was there; so after any number of registrations
    under that [user_id] the entry is the websocket registered last. *)
Theorem connect_last_registered_wins
    (disconnect :
      ConnectionManager -> WebSocket -> string -> option Z -> result)
    (self : ConnectionManager) (earlier : list (WebSocket * string))
    (websocket : WebSocket) (client_id : string) (n : Z) :
  n <> 0 ->
  user_connections (state (connect None self websocket client_id (Some n)))
  = <[n := websocket]> (user_connections self)
  /\ user_connections
       (run_calls disconnect self
          (registrations n (earlier ++ [(websocket, client_id)]))) !! n
     = Some websocket.
Proof.
  intros Hn. split; [by apply connect_users_nonzero|].
  unfold registrations. rewrite map_app, run_calls_app.
  cbn [map run_calls fold_left apply_call fst snd].
  rewrite connect_users_nonzero by done. apply lookup_insert_eq.
Qed.

Lemma connect_last_registered_wins_witness :
  7 <> 0
  /\ user_connections
       (state (connect None manager 3%positive "phone" (Some 7)))
     = <[7 := 3%positive]> (user_connections manager)
  /\ user_connections
       (run_calls Unified.disconnect manager
          (registrations 7
             ([(1%positive, "tab"); (2%positive, "tab")]
              ++ [(3%positive, "phone")]))) !! 7
     = Some 3%positive.
Proof.
  split; [lia|].
  apply (connect_last_registered_wins Unified.disconnect manager
           [(1%positive, "tab"); (2%positive, "tab")] 3%positive "phone" 7).
  lia.
Defined.

(** C5, refuted as stated: 0 is a [user_id] that is present, and [connect]
    does not record it. *)
Lemma connect_user_zero_not_recorded :
  user_connections
    (state (connect None manager 1%positive "tab" (Some 0))) !! 0
  <> Some 1%positive.
Proof. by vm_compute. Qed.

Lemma registered_twice_member (self : ConnectionManager)
    (c1 : WebSocket) (g1 : string) (c2 : WebSocket) (g2 : string) (n : Z) :
  exists conns,
    active_connections (registered_twice self c1 g1 c2 g2 n) !! g1
    = Some conns /\ c1 ∈ conns.
Proof.
  unfold registered_twice. rewrite !connect_active.
  destruct (decide (g2 = g1)) as [->|Hne].
  - rewrite !lookup_insert_eq. simpl. eexists. split; [done|].
    set_solver.
  - rewrite lookup_insert_ne, lookup_insert_eq by done.
    eexists. split; [done|]. set_solver.
Qed.

(** C1, as the code has it. [disconnect] deletes [user_connections[user_id]]
    without looking at which websocket the entry holds. With [c1] registered
    before [c2] under the same non-zero [user_id], the entry holds [c2];
    unregistering [c1] with that [user_id] returns normally in both files
    and leaves no entry for the user. *)
Theorem disconnect_earlier_evicts_user (self : ConnectionManager)
    (c1 : WebSocket) (g1 : string) (c2 : WebSocket) (g2 : string) (n : Z) :
  n <> 0 ->
  let m := registered_twice self c1 g1 c2 g2 n in
  user_connections m !! n = Some c2
  /\ (raised (Backend.disconnect m c1 g1 (Some n)) = None
      /\ user_connections (state (Backend.disconnect m c1 g1 (Some n))) !! n
         = None)
  /\ (raised (Unified.disconnect m c1 g1 (Some n)) = None
      /\ user_connections (state (Unified.disconnect m c1 g1 (Some n))) !! n
         = None).
Proof.
  intros Hn m.
  destruct (registered_twice_member self c1 g1 c2 g2 n) as (conns & Hg & Hin).
  fold m in Hg.
  assert (Hret : raised (Backend.disconnect m c1 g1 (Some n)) = None)
    by (by eapply backend_disconnect_member).
  split; [|split; split; try done].
  - subst m. unfold registered_twice.
    rewrite connect_users_nonzero by done. apply lookup_insert_eq.
  - rewrite backend_disconnect_users, del_user_nonzero by done.
    apply lookup_delete_eq.
  - rewrite unified_disconnect_users, del_user_nonzero by done.
    apply lookup_delete_eq.
Qed.

Lemma disconnect_earlier_evicts_user_witness :
  7 <> 0
  /\ user_connections
       (state (Unified.disconnect
                 (registered_twice manager 1%positive "tab" 2%positive "tab" 7)
                 1%positive "tab" (Some 7))) !! 7
     = None.
Proof.
  split; [lia|].
  apply (disconnect_earlier_evicts_user manager
           1%positive "tab" 2%positive "tab" 7).
  lia.
Defined.

(** C1, refuted as stated: websockets 1 and then 2 register in group "tab"
    under user 7; unregistering websocket 1 removes the entry of user 7,
    which was websocket 2, in both files. *)
Lemma disconnect_earlier_drops_later_entry :
  let m := registered_twice manager 1%positive "tab" 2%positive "tab" 7 in
  user_connections m !! 7 = Some 2%positive
  /\ user_connections
       (state (Backend.disconnect m 1%positive "tab" (Some 7))) !! 7
     <> Some 2%positive
  /\ user_connections
       (state (Unified.disconnect m 1%positive "tab" (Some 7))) !! 7
     <> Some 2%positive.
Proof. by vm_compute. Qed.

(** C3, as the code has it. When [websocket] is not in
    [active_connections[client_id]], [src/main.py]'s [disconnect] raises
    nothing and leaves [active_connections] as it was; with no [user_id] or
    [user_id] 0 the whole registry is unchanged, and with any other
    [user_id] the entry of that user, if there is one, is deleted. When the
    key [client_id] itself is absent, the backend's [disconnect] does the
    same. *)
Theorem disconnect_absent_connection (self : ConnectionManager)
    (websocket : WebSocket) (client_id : string) (user_id : option Z) :
  (forall conns, active_connections self !! client_id = Some conns ->
                 websocket ∉ conns) ->
  let r := Unified.disconnect self websocket client_id user_id in
  raised r = None
  /\ active_connections (state r) = active_connections self
  /\ (truthy user_id = false -> state r = self)
  /\ (forall n, user_id = Some n -> n <> 0 ->
        user_connections (state r) = delete n (user_connections self))
  /\ (active_connections self !! client_id = None ->
      Backend.disconnect self websocket client_id user_id = r).
Proof.
  intros Habsent r.
  assert (Hact : active_connections (state r) = active_connections self).
  { subst r. unfold Unified.disconnect. cbn [state active_connections].
    destruct (active_connections self !! client_id) as [conns|] eqn:Hg;
      [|done].
    specialize (Habsent conns eq_refl).
    apply list_remove_None in Habsent. by rewrite Habsent. }
  split; [done|]. split; [done|]. split; [|split].
  - intros Hf. apply ConnectionManager_eq; [done|]. subst r.
    by rewrite unified_disconnect_users, del_user_falsy.
  - intros n -> Hn. subst r.
    by rewrite unified_disconnect_users, del_user_nonzero.
  - intros Hnone. subst r. unfold Backend.disconnect, Unified.disconnect.
    by rewrite Hnone.
Qed.

Lemma disconnect_absent_connection_witness :
  (forall conns,
     active_connections
       (state (connect None manager 2%positive "tab" None)) !! "tab"
     = Some conns -> 1%positive ∉ conns)
  /\ state (Unified.disconnect
              (state (connect None manager 2%positive "tab" None))
              1%positive "tab" None)
     = state (connect None manager 2%positive "tab" None).
Proof.
  assert (H : forall conns,
             active_connections
               (state (connect None manager 2%positive "tab" None)) !! "tab"
             = Some conns -> 1%positive ∉ conns).
  { intros conns. vm_compute. intros [= <-].
    apply not_elem_of_cons. split; [done | apply not_elem_of_nil]. }
  split; [exact H|].
  by apply (disconnect_absent_connection
              (state (connect None manager 2%positive "tab" None))
              1%positive "tab" None H).
Defined.

(** C3, refuted as stated: websocket 2 is registered in group "tab" under
    user 7, and websocket 1, which is in no group, is unregistered from
    "tab" with user 7. [src/main.py] deletes the entry of user 7; the
    backend raises [ValueError]. *)
Lemma disconnect_absent_is_not_a_noop :
  let m := state (connect None manager 2%positive "tab" (Some 7)) in
  active_connections m !! "tab" = Some [2%positive]
  /\ (1%positive ∉ [2%positive])
  /\ user_connections
       (state (Unified.disconnect m 1%positive "tab" (Some 7)))
     <> user_connections m
  /\ raised (Backend.disconnect m 1%positive "tab" (Some 7))
     = Some ValueError.
Proof.
  split; [by vm_compute|].
  split; [apply not_elem_of_cons; split; [done | apply not_elem_of_nil]|].
  split; [|by vm_compute].
  intros Heq. apply (f_equal (fun users => users !! 7)) in Heq.
  by vm_compute in Heq.
Qed.

(** ** The groups never hold an empty list *)

Lemma manager_no_empty_group : no_empty_group manager.
Proof. apply map_Forall_empty. Qed.

Lemma connect_no_empty_group (accept : option exn) (self : ConnectionManager)
    (websocket : WebSocket) (client_id : string) (user_id : option Z) :
  no_empty_group self ->
  no_empty_group (state (connect accept self websocket client_id user_id)).
Proof.
  intros Hinv. destruct accept as [e|]; [done|].
  unfold no_empty_group. rewrite connect_active.
  apply map_Forall_insert_2; [|done].
  by destruct (default [] (active_connections self !! client_id)).
Qed.

Lemma store_or_del_no_empty (active : gmap string (list WebSocket))
    (client_id : string) (conns : list WebSocket) :
  map_Forall (fun _ l => l <> []) active ->
  map_Forall (fun _ l => l <> []) (store_or_del active client_id conns).
Proof.
  intros Hinv. destruct conns as [|w conns]; simpl.
  - by apply map_Forall_delete.
  - by apply map_Forall_insert_2.
Qed.

Lemma backend_disconnect_no_empty_group (self : ConnectionManager)
    (websocket : WebSocket) (client_id : string) (user_id : option Z) :
  no_empty_group self ->
  no_empty_group (state (Backend.disconnect self websocket client_id user_id)).
Proof.
  intros Hinv. unfold Backend.disconnect.
  destruct (active_connections self !! client_id) as [conns|]; [|done].
  destruct (list_remove websocket conns); [|done].
  by apply store_or_del_no_empty.
Qed.

Lemma unified_disconnect_no_empty_group (self : ConnectionManager)
    (websocket : WebSocket) (client_id : string) (user_id : option Z) :
  no_empty_group self ->
  no_empty_group (state (Unified.disconnect self websocket client_id user_id)).
Proof.
  intros Hinv. unfold Unified.disconnect, no_empty_group.
  cbn [state active_connections].
  destruct (active_connections self !! client_id) as [conns|]; [|done].
  destruct (list_remove websocket conns); [|done].
  by apply store_or_del_no_empty.
Qed.

Section Invariant.

Variable disconnect :
  ConnectionManager -> WebSocket -> string -> option Z -> result.

Hypothesis disconnect_keeps :
  forall self websocket client_id user_id,
    no_empty_group self ->
    no_empty_group (state (disconnect self websocket client_id user_id)).

Lemma apply_call_no_empty_group (self : ConnectionManager) (c : call) :
  no_empty_group self ->
  no_empty_group (state (apply_call disconnect self c)).
Proof.
  destruct c; simpl; [apply connect_no_empty_group | apply disconnect_keeps].
Qed.

Lemma run_calls_no_empty_group (calls : list call)
    (self : ConnectionManager) :
  no_empty_group self ->
  no_empty_group (run_calls disconnect self calls).
Proof.
  revert self. induction calls as [|c calls IH]; intros self Hinv; [done|].
  apply IH. by apply apply_call_no_empty_group.
Qed.

End Invariant.

Lemma store_or_del_lookup (active : gmap string (list WebSocket))
    (client_id : string) (conns : list WebSocket) :
  store_or_del active client_id conns !! client_id = None <-> conns = [].
Proof.
  destruct conns as [|w conns]; simpl.
  - by rewrite lookup_delete_eq.
  - by rewrite lookup_insert_eq.
Qed.

Lemma unified_disconnect_key (self : ConnectionManager)
    (websocket : WebSocket) (client_id : string) (user_id : option Z) :
  active_connections
    (state (Unified.disconnect self websocket client_id user_id)) !! client_id
  = None
  <-> active_connections self !! client_id = None
      \/ active_connections self !! client_id = Some [websocket].
Proof.
  unfold Unified.disconnect. cbn [state active_connections].
  destruct (active_connections self !! client_id) as [conns|] eqn:Hg.
  - destruct (list_remove websocket conns) as [conns'|] eqn:Hr.
    + rewrite store_or_del_lookup. split.
      * intros ->. right. f_equal. by apply list_remove_nil_iff.
      * intros [|[= ->]]; [done|].
        simpl in Hr. rewrite decide_True in Hr by done. congruence.
    + rewrite Hg. split; [done|]. intros [|[= ->]]; [done|].
      simpl in Hr. by rewrite decide_True in Hr.
  - rewrite Hg. by split; [left|].
Qed.

Lemma backend_disconnect_key (self : ConnectionManager)
    (websocket : WebSocket) (client_id : string) (user_id : option Z) :
  active_connections
    (state (Backend.disconnect self websocket client_id user_id)) !! client_id
  = None
  <-> active_connections self !! client_id = None
      \/ active_connections self !! client_id = Some [websocket].
Proof.
  unfold Backend.disconnect.
  destruct (active_connections self !! client_id) as [conns|] eqn:Hg.
  - destruct (list_remove websocket conns) as [conns'|] eqn:Hr;
      cbn [state active_connections].
    + rewrite store_or_del_lookup. split.
      * intros ->. right. f_equal. by apply list_remove_nil_iff.
      * intros [|[= ->]]; [done|].
        simpl in Hr. rewrite decide_True in Hr by done. congruence.
    + rewrite Hg. split; [done|]. intros [|[= ->]]; [done|].
      simpl in Hr. by rewrite decide_True in Hr.
  - cbn [state active_connections]. rewrite Hg. by split; [left|].
Qed.

(** C4. Starting from the empty registry, after any sequence of [connect]
    and [disconnect] calls (whatever [accept] does, and in either file) no
    key of [active_connections] holds an empty list; and a [disconnect]
    leaves the key [client_id] absent exactly when it was absent already or
    the list under it was the one websocket being unregistered. *)
Theorem groups_never_hold_an_empty_list (calls : list call)
    (websocket : WebSocket) (client_id : string) (user_id : option Z) :
  (no_empty_group (run_calls Backend.disconnect manager calls)
   /\ no_empty_group (run_calls Unified.disconnect manager calls))
  /\ (let m := run_calls Backend.disconnect manager calls in
      active_connections
        (state (Backend.disconnect m websocket client_id user_id))
        !! client_id = None
      <-> active_connections m !! client_id = None
          \/ active_connections m !! client_id = Some [websocket])
  /\ (let m := run_calls Unified.disconnect manager calls in
      active_connections
        (state (Unified.disconnect m websocket client_id user_id))
        !! client_id = None
      <-> active_connections m !! client_id = None
          \/ active_connections m !! client_id = Some [websocket]).
Proof.
  split; [split|split].
  - apply run_calls_no_empty_group;
      [apply backend_disconnect_no_empty_group | apply manager_no_empty_group].
  - apply run_calls_no_empty_group;
      [apply unified_disconnect_no_empty_group | apply manager_no_empty_group].
  - apply backend_disconnect_key.
  - apply unified_disconnect_key.
Qed.

(** ** The receive loop *)

Lemma receive_loop_cons (websocket : WebSocket) (t : turn)
    (script : list turn) (data : json) (ty : option json) :
  received t = Ok data ->
  get data "type" = Ok ty ->
  receive_loop websocket (t :: script)
  = let message :=
      if eq_str ty "ping"
      then JDict [("type", JStr "pong");
                  ("timestamp", JStr (utcnow_isoformat t))]
      else JDict [("type", JStr "echo"); ("data", data)] in
    match sent t with
    | Some e => ([SendJson websocket message], Raise e)
    | None =>
        (SendJson websocket message :: fst (receive_loop websocket script),
         snd (receive_loop websocket script))
    end.
Proof.
  intros Hr Hg. cbn [receive_loop]. rewrite Hr, Hg.
  destruct (sent t); [done|].
  by destruct (receive_loop websocket script).
Qed.

(** A loop that is still awaiting after [pre] goes on with what follows. *)
Lemma receive_loop_app (websocket : WebSocket) (pre post : list turn) :
  snd (receive_loop websocket pre) = Awaiting ->
  receive_loop websocket (pre ++ post)
  = (fst (receive_loop websocket pre) ++ fst (receive_loop websocket post),
     snd (receive_loop websocket post)).
Proof.
  induction pre as [|t pre IH]; intros Hw.
  - simpl. by destruct (receive_loop websocket post).
  - rewrite <- app_comm_cons. revert Hw. cbn [receive_loop].
    destruct (received t) as [data|e]; [|done].
    destruct (get data "type") as [ty|e]; [|done].
    destruct (sent t) as [e|]; [done|].
    destruct (receive_loop websocket pre) as [log x] eqn:Hpre.
    simpl. intros ->. by rewrite IH.
Qed.

Lemma receive_loop_events (websocket : WebSocket) (script : list turn)
    (ev : event) :
  In ev (fst (receive_loop websocket script)) ->
  exists message, ev = SendJson websocket message.
Proof.
  induction script as [|t script IH]; [done|].
  cbn [receive_loop].
  destruct (received t) as [data|e]; [|done].
  destruct (get data "type") as [ty|e]; [|done].
  destruct (sent t) as [e|].
  - simpl. intros [<-|[]]. by eexists.
  - destruct (receive_loop websocket script) as [log x].
    simpl in *. intros [<-|Hin]; [by eexists | by apply IH].
Qed.

Lemma receive_loop_no_disconnect (websocket : WebSocket)
    (script : list turn) :
  List.filter is_disconnect (fst (receive_loop websocket script)) = [].
Proof.
  destruct (List.filter is_disconnect (fst (receive_loop websocket script)))
    as [|ev l] eqn:E; [done|].
  assert (Hin : In ev (List.filter is_disconnect
                         (fst (receive_loop websocket script))))
    by (rewrite E; by left).
  apply filter_In in Hin as [Hin Hd].
  by destruct (receive_loop_events _ _ _ Hin) as [message ->].
Qed.

Section Cleanup.

Variable disconnect :
  ConnectionManager -> WebSocket -> string -> option Z -> result.

Hypothesis disconnect_effects :
  forall self websocket client_id user_id,
    effects (disconnect self websocket client_id user_id) = [].

(** [manager.disconnect] is called once when the loop is left by
    [WebSocketDisconnect], and not at all on any other way out. *)
Lemma endpoint_disconnect_calls (self : ConnectionManager)
    (accept : option exn) (websocket : WebSocket) (client_id : string)
    (user_id : option Z) (script : list turn) :
  disconnect_calls
    (endpoint disconnect self accept websocket client_id user_id script)
  = match accept, snd (receive_loop websocket script) with
    | None, Raise WebSocketDisconnect => 1%nat
    | _, _ => 0%nat
    end.
Proof.
  unfold endpoint, disconnect_calls. destruct accept as [e|]; [done|].
  pose proof (receive_loop_no_disconnect websocket script) as Hlog.
  destruct (receive_loop websocket script) as [log x]. simpl in *.
  destruct x as [|[]]; simpl;
    rewrite ?disconnect_effects, ?List.filter_app; simpl;
    by rewrite Hlog.
Qed.

End Cleanup.

Lemma backend_disconnect_effects (self : ConnectionManager)
    (websocket : WebSocket) (client_id : string) (user_id : option Z) :
  effects (Backend.disconnect self websocket client_id user_id) = [].
Proof.
  unfold Backend.disconnect.
  destruct (active_connections self !! client_id) as [conns|]; [|done].
  by destruct (list_remove websocket conns).
Qed.

Lemma unified_disconnect_effects (self : ConnectionManager)
    (websocket : WebSocket) (client_id : string) (user_id : option Z) :
  effects (Unified.disconnect self websocket client_id user_id) = [].
Proof. done. Qed.

(** C6, where the code departs from it. The client's first frame is not
    JSON, so [receive_json] raises [JSONDecodeError]. In both files the
    exception passes the one handler, [except WebSocketDisconnect], and
    leaves the endpoint: [manager.disconnect] is not called, and the
    websocket stays in [active_connections] (and, in the backend, in
    [user_connections]). *)
Theorem decode_failure_leaves_connection_registered :
  let script := [{| received := Err JSONDecodeError;
                    utcnow_isoformat := "2024-01-01T00:00:00";
                    sent := None |}] in
  (let s := Backend.websocket_endpoint manager None 1%positive "tab"
              (Some 7) script in
   outcome s = Propagated JSONDecodeError
   /\ disconnect_calls s = 0%nat
   /\ active_connections (registry s) !! "tab" = Some [1%positive]
   /\ user_connections (registry s) !! 7 = Some 1%positive)
  /\ (let s := Unified.websocket_endpoint manager None 1%positive "tab"
                 script in
      outcome s = Propagated JSONDecodeError
      /\ disconnect_calls s = 0%nat
      /\ active_connections (registry s) !! "tab" = Some [1%positive]).
Proof. by vm_compute. Qed.

(** The part of C6 that holds: when the loop is left by
    [WebSocketDisconnect], from [receive_json] or from [send_json], both
    files call [manager.disconnect] exactly once. *)
Lemma transport_disconnect_unregisters_once (self : ConnectionManager)
    (websocket : WebSocket) (client_id : string) (user_id : option Z)
    (script : list turn) :
  snd (receive_loop websocket script) = Raise WebSocketDisconnect ->
  disconnect_calls
    (Backend.websocket_endpoint self None websocket client_id user_id script)
  = 1%nat
  /\ disconnect_calls
       (Unified.websocket_endpoint self None websocket client_id script)
     = 1%nat.
Proof.
  intros Hx. unfold Backend.websocket_endpoint, Unified.websocket_endpoint.
  rewrite (endpoint_disconnect_calls _ backend_disconnect_effects).
  rewrite (endpoint_disconnect_calls _ unified_disconnect_effects).
  by rewrite Hx.
Qed.

(** Any other exception leaves the endpoint without the call. *)
Lemma other_exception_skips_disconnect (self : ConnectionManager)
    (websocket : WebSocket) (client_id : string) (user_id : option Z)
    (script : list turn) (e : exn) :
  snd (receive_loop websocket script) = Raise e ->
  e <> WebSocketDisconnect ->
  disconnect_calls
    (Backend.websocket_endpoint self None websocket client_id user_id script)
  = 0%nat
  /\ disconnect_calls
       (Unified.websocket_endpoint self None websocket client_id script)
     = 0%nat.
Proof.
  intros Hx Hne. unfold Backend.websocket_endpoint, Unified.websocket_endpoint.
  rewrite (endpoint_disconnect_calls _ backend_disconnect_effects).
  rewrite (endpoint_disconnect_calls _ unified_disconnect_effects).
  rewrite Hx. by destruct e.
Qed.

(** C7. When the loop receives a message whose ["type"] is ["ping"], the
    next thing it does is [send_json], on the websocket it serves, of the
    dictionary with ["type"] ["pong"] and ["timestamp"] the string that
    [datetime.utcnow().isoformat()] gave at that moment. *)
Theorem ping_is_answered_with_pong (websocket : WebSocket)
    (pre : list turn) (t : turn) (post : list turn) (data : json) :
  snd (receive_loop websocket pre) = Awaiting ->
  received t = Ok data ->
  get data "type" = Ok (Some (JStr "ping")) ->
  exists later,
    fst (receive_loop websocket (pre ++ t :: post))
    = fst (receive_loop websocket pre)
      ++ SendJson websocket
           (JDict [("type", JStr "pong");
                   ("timestamp", JStr (utcnow_isoformat t))])
      :: later.
Proof.
  intros Hpre Hr Hg. rewrite receive_loop_app by done.
  rewrite (receive_loop_cons _ _ _ _ _ Hr Hg). simpl.
  destruct (sent t); simpl; by eexists.
Qed.

Lemma ping_is_answered_with_pong_witness :
  let t := {| received := Ok (JDict [("type", JStr "ping")]);
              utcnow_isoformat := "2024-05-17T09:30:00.000123";
              sent := None |} in
  snd (receive_loop 1%positive []) = Awaiting
  /\ received t = Ok (JDict [("type", JStr "ping")])
  /\ get (JDict [("type", JStr "ping")]) "type" = Ok (Some (JStr "ping"))
  /\ exists later,
       fst (receive_loop 1%positive ([] ++ t :: []))
       = fst (receive_loop 1%positive [])
         ++ SendJson 1%positive
              (JDict [("type", JStr "pong");
                      ("timestamp", JStr "2024-05-17T09:30:00.000123")])
         :: later.
Proof.
  intros t. split; [reflexivity|]. split; [reflexivity|].
  split; [reflexivity|].
  apply (ping_is_answered_with_pong 1%positive [] t []
           (JDict [("type", JStr "ping")]));
    reflexivity.
Defined.

Lemma eq_str_other (items : list (string * json)) (ty : option json) :
  get (JDict items) "type" = Ok ty ->
  ty <> Some (JStr "ping") ->
  eq_str ty "ping" = false.
Proof.
  intros _ Hne. destruct ty as [[]|]; simpl; try done.
  case_bool_decide; [|done]. by subst.
Qed.

(** C8. When the loop receives a dictionary whose ["type"] is not ["ping"]
    (another value, or no such key), the next thing it does is [send_json],
    on the websocket it serves, of the dictionary with ["type"] ["echo"]
    and ["data"] the dictionary it received, unchanged. *)
Theorem other_message_is_echoed (websocket : WebSocket)
    (pre : list turn) (t : turn) (post : list turn)
    (items : list (string * json)) :
  snd (receive_loop websocket pre) = Awaiting ->
  received t = Ok (JDict items) ->
  get (JDict items) "type" <> Ok (Some (JStr "ping")) ->
  exists later,
    fst (receive_loop websocket (pre ++ t :: post))
    = fst (receive_loop websocket pre)
      ++ SendJson websocket
           (JDict [("type", JStr "echo"); ("data", JDict items)])
      :: later.
Proof.
  intros Hpre Hr Hne. rewrite receive_loop_app by done.
  destruct (get (JDict items) "type") as [ty|e] eqn:Hg; [|done].
  rewrite (receive_loop_cons _ _ _ _ _ Hr Hg).
  rewrite (eq_str_other items ty Hg) by congruence. simpl.
  destruct (sent t); simpl; by eexists.
Qed.

Lemma other_message_is_echoed_witness :
  let foo := [("type", JStr "foo"); ("x", JInt 1)] in
  let t := {| received := Ok (JDict foo);
              utcnow_isoformat := "2024-05-17T09:30:00.000123";
              sent := None |} in
  snd (receive_loop 1%positive []) = Awaiting
  /\ received t = Ok (JDict foo)
  /\ get (JDict foo) "type" <> Ok (Some (JStr "ping"))
  /\ exists later,
       fst (receive_loop 1%positive ([] ++ t :: []))
       = fst (receive_loop 1%positive [])
         ++ SendJson 1%positive
              (JDict [("type", JStr "echo");
                      ("data", JDict [("type", JStr "foo"); ("x", JInt 1)])])
         :: later.
Proof.
  intros foo t.
  assert (Hne : get (JDict foo) "type" <> Ok (Some (JStr "ping")))
    by (vm_compute; discriminate).
  split; [reflexivity|]. split; [reflexivity|]. split; [exact Hne|].
  apply (other_message_is_echoed 1%positive [] t [] foo);
    [reflexivity | reflexivity | exact Hne].
Defined.

(** ** Who is ever sent a message *)

Lemma connect_effects (accept : option exn) (self : ConnectionManager)
    (websocket : WebSocket) (client_id : string) (user_id : option Z) :
  effects (connect accept self websocket client_id user_id)
  = [Accept websocket].
Proof. by destruct accept. Qed.

Lemma apply_call_sends_nothing
    (disconnect :
      ConnectionManager -> WebSocket -> string -> option Z -> result)
    (self : ConnectionManager) (c : call) :
  (forall m w g u, effects (disconnect m w g u) = []) ->
  omap send_target (effects (apply_call disconnect self c)) = [].
Proof.
  intros Hd. destruct c; simpl; [by rewrite connect_effects | by rewrite Hd].
Qed.

Lemma receive_loop_targets (websocket : WebSocket) (script : list turn) :
  Forall (fun w => w = websocket)
         (omap send_target (fst (receive_loop websocket script))).
Proof.
  apply Forall_forall. intros w Hw.
  apply list_elem_of_omap in Hw as (ev & Hev & Ht).
  apply list_elem_of_In in Hev.
  destruct (receive_loop_events _ _ _ Hev) as [message ->].
  simpl in Ht. congruence.
Qed.

Lemma endpoint_targets
    (disconnect :
      ConnectionManager -> WebSocket -> string -> option Z -> result)
    (self : ConnectionManager) (accept : option exn) (websocket : WebSocket)
    (client_id : string) (user_id : option Z) (script : list turn) :
  (forall m w g u, effects (disconnect m w g u) = []) ->
  Forall (fun w => w = websocket)
    (omap send_target
       (events (endpoint disconnect self accept websocket client_id user_id
                  script))).
Proof.
  intros Hd. unfold endpoint. rewrite connect_effects.
  destruct accept as [e|]; simpl; [by constructor|].
  pose proof (receive_loop_targets websocket script) as Hlog.
  destruct (receive_loop websocket script) as [log x]. simpl in Hlog.
  destruct x as [|[]]; simpl; rewrite ?Hd, ?omap_app; simpl;
    rewrite ?app_nil_r; done.
Qed.

(** C9, as the code has it. The registry has no broadcast: its operations
    are [connect] and [disconnect], and in either file neither sends a
    message to any websocket. The only [send_json] calls of the program are
    the loop's replies, each to the websocket the message came from; and a
    reply whose [send_json] raises is not counted as a failure: the
    exception ends that connection's loop. *)
Theorem registry_sends_nothing (self : ConnectionManager) (c : call)
    (accept : option exn) (websocket : WebSocket) (client_id : string)
    (user_id : option Z) (script : list turn)
    (items : list (string * json)) (now : string) (e : exn) :
  (omap send_target (effects (apply_call Backend.disconnect self c)) = []
   /\ omap send_target (effects (apply_call Unified.disconnect self c)) = [])
  /\ (Forall (fun w => w = websocket)
        (omap send_target
           (events (Backend.websocket_endpoint self accept websocket
                      client_id user_id script)))
      /\ Forall (fun w => w = websocket)
           (omap send_target
              (events (Unified.websocket_endpoint self accept websocket
                         client_id script))))
  /\ snd (receive_loop websocket
            ({| received := Ok (JDict items);
                utcnow_isoformat := now;
                sent := Some e |} :: script))
     = Raise e.
Proof.
  split; [split|split; [split|]].
  - apply apply_call_sends_nothing, backend_disconnect_effects.
  - apply apply_call_sends_nothing, unified_disconnect_effects.
  - apply endpoint_targets, backend_disconnect_effects.
  - apply endpoint_targets, unified_disconnect_effects.
  - done.
Qed.

(** C9, refuted as stated: with websockets 1, 2 and 3 in group "tab", no
    call the registry offers, in either file, sends anything to websocket 1
    or to websocket 3, so none attempts the deliveries the claim asks for. *)
Lemma no_call_delivers_to_the_group :
  let m := run_calls Unified.disconnect manager
             [Register None 1%positive "tab" None;
              Register None 2%positive "tab" None;
              Register None 3%positive "tab" None] in
  active_connections m !! "tab" = Some [1%positive; 2%positive; 3%positive]
  /\ ~ exists (c : call) (w : WebSocket) (message : json),
         In (SendJson w message) (effects (apply_call Backend.disconnect m c))
         \/ In (SendJson w message)
               (effects (apply_call Unified.disconnect m c)).
Proof.
  split; [by vm_compute|].
  intros (c & w & message & [Hin|Hin]); destruct c; simpl in Hin;
    rewrite ?connect_effects, ?backend_disconnect_effects in Hin;
    simpl in Hin; by intuition.
Qed.

(** * Further properties of the registry and the loop *)

Lemma list_remove_app_last (x : WebSocket) (l : list WebSocket) :
  x ∉ l -> list_remove x (l ++ [x]) = Some l.
Proof.
  induction l as [|y l IH]; intros Hn; simpl.
  - by rewrite decide_True.
  - apply not_elem_of_cons in Hn as [Hne Hn].
    rewrite decide_False by congruence. by rewrite IH.
Qed.

Lemma store_or_del_restore (active : gmap string (list WebSocket))
    (client_id : string) (conns tmp : list WebSocket) :
  conns = default [] (active !! client_id) ->
  active !! client_id <> Some [] ->
  store_or_del (<[client_id := tmp]> active) client_id conns = active.
Proof.
  intros -> Hne. destruct (active !! client_id) as [[|w l]|] eqn:Hg;
    simpl; try done.
  - rewrite insert_insert_eq. by apply insert_id.
  - rewrite delete_insert_eq. by apply delete_id.
Qed.

Lemma del_user_insert (users : gmap Z WebSocket) (websocket : WebSocket)
    (n : Z) :
  n <> 0 -> users !! n = None ->
  del_user (<[n := websocket]> users) (Some n) = users.
Proof.
  intros Hn Hfree. rewrite del_user_nonzero by done.
  rewrite delete_insert_eq. by apply delete_id.
Qed.

Lemma connect_disconnect_users (self : ConnectionManager)
    (websocket : WebSocket) (client_id : string) (user_id : option Z) :
  (forall n, user_id = Some n -> n <> 0 -> user_connections self !! n = None) ->
  del_user
    (user_connections
       (state (connect None self websocket client_id user_id))) user_id
  = user_connections self.
Proof.
  intros Hfree. destruct (truthy user_id) eqn:Ht.
  - destruct user_id as [n|]; [|done].
    assert (n <> 0) as Hn.
    { intros ->. by vm_compute in Ht. }
    rewrite connect_users_nonzero by done.
    apply del_user_insert; [done|]. by apply Hfree.
  - rewrite connect_falsy_users by done. by apply del_user_falsy.
Qed.

Lemma connect_then_disconnect (self : ConnectionManager)
    (websocket : WebSocket) (client_id : string) (user_id : option Z) :
  websocket ∉ default [] (active_connections self !! client_id) ->
  active_connections self !! client_id <> Some [] ->
  (forall n, user_id = Some n -> n <> 0 -> user_connections self !! n = None) ->
  let m := state (connect None self websocket client_id user_id) in
  Backend.disconnect m websocket client_id user_id
  = {| state := self; effects := []; raised := None |}
  /\ Unified.disconnect m websocket client_id user_id
     = {| state := self; effects := []; raised := None |}.
Proof.
  intros Hnew Hne Hfree m.
  assert (Hg : active_connections m !! client_id
               = Some (default [] (active_connections self !! client_id)
                       ++ [websocket])).
  { subst m. rewrite connect_active. apply lookup_insert_eq. }
  assert (Hact : store_or_del (active_connections m) client_id
                   (default [] (active_connections self !! client_id))
                 = active_connections self).
  { subst m. rewrite connect_active. by apply store_or_del_restore. }
  assert (Hu : del_user (user_connections m) user_id = user_connections self)
    by (by apply connect_disconnect_users).
  unfold Backend.disconnect, Unified.disconnect.
  rewrite Hg, (list_remove_app_last _ _ Hnew), Hact, Hu.
  by destruct self.
Qed.

(** X1. Registering a websocket and unregistering it again gives back the
    registry that was there, in both files, provided the websocket was not
    already in the group, the group's list was not an empty one, and a
    non-zero [user_id] had no entry before. *)
Theorem connect_disconnect_round_trip (self : ConnectionManager)
    (websocket : WebSocket) (client_id : string) (user_id : option Z) :
  websocket ∉ default [] (active_connections self !! client_id) ->
  active_connections self !! client_id <> Some [] ->
  (forall n, user_id = Some n -> n <> 0 -> user_connections self !! n = None) ->
  let m := state (connect None self websocket client_id user_id) in
  Backend.disconnect m websocket client_id user_id
  = {| state := self; effects := []; raised := None |}
  /\ Unified.disconnect m websocket client_id user_id
     = {| state := self; effects := []; raised := None |}.
Proof. apply connect_then_disconnect. Qed.

Lemma connect_disconnect_round_trip_witness :
  let m := state (connect None manager 2%positive "tab" None) in
  (3%positive ∉ default [] (active_connections m !! "tab"))
  /\ active_connections m !! "tab" <> Some []
  /\ (forall n, Some 7 = Some n -> n <> 0 -> user_connections m !! n = None)
  /\ Backend.disconnect
       (state (connect None m 3%positive "tab" (Some 7)))
       3%positive "tab" (Some 7)
     = {| state := m; effects := []; raised := None |}.
Proof.
  intros m.
  assert (H1 : 3%positive ∉ default [] (active_connections m !! "tab")).
  { vm_compute. apply not_elem_of_cons. split; [done | apply not_elem_of_nil]. }
  assert (H2 : active_connections m !! "tab" <> Some []) by (by vm_compute).
  assert (H3 : forall n, Some 7 = Some n -> n <> 0 ->
                         user_connections m !! n = None).
  { intros n _ _. apply lookup_empty. }
  split; [exact H1|]. split; [exact H2|]. split; [exact H3|].
  apply (connect_disconnect_round_trip m 3%positive "tab" (Some 7) H1 H2 H3).
Defined.

Lemma disconnect_files_differ (self : ConnectionManager)
    (websocket : WebSocket) (client_id : string) (user_id : option Z) :
  ((exists conns, active_connections self !! client_id = Some conns
                  /\ websocket ∉ conns)
   /\ Backend.disconnect self websocket client_id user_id
      = {| state := self; effects := []; raised := Some ValueError |})
  \/ Backend.disconnect self websocket client_id user_id
     = Unified.disconnect self websocket client_id user_id.
Proof.
  unfold Backend.disconnect, Unified.disconnect.
  destruct (active_connections self !! client_id) as [conns|] eqn:Hg;
    [|by right].
  destruct (list_remove websocket conns) as [conns'|] eqn:Hr; [by right|].
  left. split; [|done]. exists conns. split; [done|].
  by apply list_remove_None.
Qed.

(** X2. The two files' [disconnect] differ in one situation only: the key
    [client_id] is there and the websocket is not in its list. There the
    backend raises [ValueError] and changes nothing; everywhere else it
    returns exactly what [src/main.py]'s [disconnect] returns. *)
Theorem disconnect_files_agree (self : ConnectionManager)
    (websocket : WebSocket) (client_id : string) (user_id : option Z) :
  let b := Backend.disconnect self websocket client_id user_id in
  ((exists conns, active_connections self !! client_id = Some conns
                  /\ websocket ∉ conns)
   /\ b = {| state := self; effects := []; raised := Some ValueError |})
  \/ ((forall conns, active_connections self !! client_id = Some conns ->
                     websocket ∈ conns)
      /\ b = Unified.disconnect self websocket client_id user_id).
Proof.
  intros b. subst b. unfold Backend.disconnect, Unified.disconnect.
  destruct (active_connections self !! client_id) as [conns|] eqn:Hg.
  - destruct (list_remove websocket conns) as [conns'|] eqn:Hr.
    + right. split; [|done]. intros ? [= <-].
      destruct (decide (websocket ∈ conns)) as [|Hn]; [done|].
      apply list_remove_None in Hn. congruence.
    + left. split; [|done]. exists conns. split; [done|].
      by apply list_remove_None.
  - right. split; [|done]. by intros conns [=].
Qed.

Lemma list_remove_filter (x w : WebSocket) (l l' : list WebSocket) :
  list_remove x l = Some l' ->
  length (filter (fun y => y = w) l)
  = (length (filter (fun y => y = w) l')
     + (if decide (w = x) then 1 else 0))%nat.
Proof.
  revert l'. induction l as [|y l IH]; intros l'; cbn [list_remove]; [done|].
  destruct (decide (y = x)) as [->|Hyx].
  - intros [= <-]. rewrite filter_cons.
    destruct (decide (w = x)) as [->|Hne].
    + rewrite decide_True by done. simpl. lia.
    + rewrite decide_False by congruence. lia.
  - destruct (list_remove x l) as [k|]; simpl; [|done].
    intros [= <-]. rewrite !filter_cons. specialize (IH k eq_refl).
    destruct (decide (y = w)) as [->|Hyw]; simpl; lia.
Qed.

Lemma store_or_del_default (active : gmap string (list WebSocket))
    (client_id : string) (conns : list WebSocket) :
  default [] (store_or_del active client_id conns !! client_id) = conns.
Proof.
  destruct conns; simpl; [by rewrite lookup_delete_eq|].
  by rewrite lookup_insert_eq.
Qed.

Lemma store_or_del_other (active : gmap string (list WebSocket))
    (client_id other : string) (conns : list WebSocket) :
  other <> client_id ->
  store_or_del active client_id conns !! other = active !! other.
Proof.
  intros Hne. destruct conns; simpl;
    [by rewrite lookup_delete_ne | by rewrite lookup_insert_ne].
Qed.

Lemma unified_disconnect_member (self : ConnectionManager)
    (websocket : WebSocket) (client_id : string) (user_id : option Z) :
  websocket ∈ default [] (active_connections self !! client_id) ->
  exists conns conns',
    active_connections self !! client_id = Some conns
    /\ list_remove websocket conns = Some conns'
    /\ Unified.disconnect self websocket client_id user_id
       = {| state :=
              {| active_connections :=
                   store_or_del (active_connections self) client_id conns';
                 user_connections :=
                   del_user (user_connections self) user_id |};
            effects := []; raised := None |}
    /\ Backend.disconnect self websocket client_id user_id
       = Unified.disconnect self websocket client_id user_id.
Proof.
  intros Hin. unfold Unified.disconnect, Backend.disconnect.
  destruct (active_connections self !! client_id) as [conns|] eqn:Hg;
    simpl in Hin; [|by apply elem_of_nil in Hin].
  destruct (list_remove_elem_of _ _ Hin) as [conns' Hr].
  exists conns, conns'. by rewrite Hr.
Qed.

(** X3. Unregistering a websocket that is in the group takes out one of its
    entries and nothing else: in both files the number of entries of that
    websocket in the group drops by one, every other websocket keeps its
    number of entries there, and every other group keeps its list. *)
Theorem disconnect_removes_one_entry (self : ConnectionManager)
    (websocket : WebSocket) (client_id : string) (user_id : option Z)
    (w : WebSocket) (other : string) :
  websocket ∈ default [] (active_connections self !! client_id) ->
  other <> client_id ->
  let b := state (Backend.disconnect self websocket client_id user_id) in
  let u := state (Unified.disconnect self websocket client_id user_id) in
  (entries self client_id w
   = (entries u client_id w + (if decide (w = websocket) then 1 else 0))%nat
   /\ active_connections u !! other = active_connections self !! other)
  /\ b = u.
Proof.
  intros Hin Hother b u.
  destruct (unified_disconnect_member self websocket client_id user_id Hin)
    as (conns & conns' & Hg & Hr & Hu & Hb).
  subst b u. rewrite Hb, Hu. cbn [state active_connections].
  split; [split|done].
  - unfold entries. cbn [active_connections].
    rewrite store_or_del_default, Hg. simpl.
    by apply list_remove_filter.
  - by apply store_or_del_other.
Qed.

Lemma disconnect_removes_one_entry_witness :
  let m := state (connect None (state (connect None manager 1%positive "tab"
                                         None))
                    1%positive "tab" None) in
  (1%positive ∈ default [] (active_connections m !! "tab"))
  /\ "phone" <> "tab"
  /\ entries m "tab" 1%positive
     = (entries (state (Unified.disconnect m 1%positive "tab" None))
          "tab" 1%positive
        + (if decide (1%positive = 1%positive) then 1 else 0))%nat.
Proof.
  intros m.
  assert (H1 : 1%positive ∈ default [] (active_connections m !! "tab"))
    by (vm_compute; apply list_elem_of_here).
  assert (H2 : "phone" <> "tab") by discriminate.
  split; [exact H1|]. split; [exact H2|].
  apply (disconnect_removes_one_entry m 1%positive "tab" None 1%positive
           "phone" H1 H2).
Defined.

Lemma del_user_idem (users : gmap Z WebSocket) (user_id : option Z) :
  del_user (del_user users user_id) user_id = del_user users user_id.
Proof.
  destruct (truthy user_id) eqn:Ht.
  - destruct user_id as [n|]; [|done].
    assert (n <> 0) as Hn by (intros ->; by vm_compute in Ht).
    rewrite !del_user_nonzero by done. apply delete_id, lookup_delete_eq.
  - by rewrite !del_user_falsy.
Qed.

Lemma filter_eq_length_zero (w : WebSocket) (l : list WebSocket) :
  length (filter (fun y => y = w) l) = 0%nat <-> w ∉ l.
Proof.
  induction l as [|y l IH]; simpl.
  - split; [intros _; apply not_elem_of_nil | done].
  - rewrite filter_cons, not_elem_of_cons.
    destruct (decide (y = w)) as [->|Hne]; simpl.
    + split; [done | by intros [? _]].
    + rewrite IH. split; [intros ?; split; [congruence | done] | by intros [_ ?]].
Qed.

Lemma disconnect_absent_state (self : ConnectionManager)
    (websocket : WebSocket) (client_id : string) (user_id : option Z) :
  websocket ∉ default [] (active_connections self !! client_id) ->
  let after := {| active_connections := active_connections self;
                  user_connections :=
                    del_user (user_connections self) user_id |} in
  state (Unified.disconnect self websocket client_id user_id) = after
  /\ (state (Backend.disconnect self websocket client_id user_id) = self
      \/ state (Backend.disconnect self websocket client_id user_id) = after).
Proof.
  intros Hn after. subst after. unfold Unified.disconnect, Backend.disconnect.
  destruct (active_connections self !! client_id) as [conns|] eqn:Hg;
    simpl in Hn.
  - apply list_remove_None in Hn. rewrite Hn. split; [done | by left].
  - split; [done | by right].
Qed.

Lemma disconnect_settled (self : ConnectionManager)
    (websocket : WebSocket) (client_id : string) (user_id : option Z) :
  websocket ∉ default [] (active_connections self !! client_id) ->
  del_user (user_connections self) user_id = user_connections self ->
  state (Unified.disconnect self websocket client_id user_id) = self
  /\ state (Backend.disconnect self websocket client_id user_id) = self.
Proof.
  intros Hn Hu.
  destruct (disconnect_absent_state self websocket client_id user_id Hn)
    as [HU HB].
  rewrite Hu in HU, HB.
  assert ({| active_connections := active_connections self;
             user_connections := user_connections self |} = self) as Heta
    by (by destruct self).
  rewrite Heta in HU, HB. split; [done | by destruct HB].
Qed.

(** X4. Unregistering twice is unregistering once: when the websocket has
    at most one entry in the group, a second [disconnect] with the same
    arguments leaves the registry exactly as the first one left it, in both
    files (the backend's second call may raise [ValueError], but changes
    nothing). *)
Theorem disconnect_twice_changes_nothing_more (self : ConnectionManager)
    (websocket : WebSocket) (client_id : string) (user_id : option Z) :
  (entries self client_id websocket <= 1)%nat ->
  let b := state (Backend.disconnect self websocket client_id user_id) in
  let u := state (Unified.disconnect self websocket client_id user_id) in
  state (Backend.disconnect b websocket client_id user_id) = b
  /\ state (Unified.disconnect u websocket client_id user_id) = u.
Proof.
  intros Hle b u.
  destruct (decide (websocket
                    ∈ default [] (active_connections self !! client_id)))
    as [Hin|Hn].
  - destruct (unified_disconnect_member self websocket client_id user_id Hin)
      as (conns & conns' & Hg & Hr & Hu & Hb).
    assert (b = u) as -> by (subst b u; by rewrite Hb).
    assert (Hgone : websocket
                    ∉ default [] (active_connections u !! client_id)).
    { subst u. rewrite Hu. cbn [state active_connections].
      rewrite store_or_del_default. apply filter_eq_length_zero.
      pose proof (list_remove_filter _ websocket _ _ Hr) as Hc.
      rewrite decide_True in Hc by done.
      unfold entries in Hle. rewrite Hg in Hle. simpl in Hle. lia. }
    assert (Husers : del_user (user_connections u) user_id
                     = user_connections u).
    { subst u. rewrite Hu. cbn [state user_connections]. apply del_user_idem. }
    destruct (disconnect_settled u websocket client_id user_id Hgone Husers).
    done.
  - destruct (disconnect_absent_state self websocket client_id user_id Hn)
      as [HU HB].
    assert (Hsettled :
      forall m, active_connections m = active_connections self ->
                user_connections m = del_user (user_connections self) user_id ->
                state (Unified.disconnect m websocket client_id user_id) = m
                /\ state (Backend.disconnect m websocket client_id user_id) = m).
    { intros m Ha Hu. apply disconnect_settled.
      - by rewrite Ha.
      - rewrite Hu. apply del_user_idem. }
    split.
    + destruct HB as [HB|HB]; subst b; rewrite HB.
      * done.
      * by apply Hsettled.
    + subst u. rewrite HU. by apply Hsettled.
Qed.

Lemma disconnect_twice_changes_nothing_more_witness :
  let m := state (connect None
                    (state (connect None manager 1%positive "tab" (Some 7)))
                    2%positive "tab" None) in
  (entries m "tab" 1%positive <= 1)%nat
  /\ state (Backend.disconnect
              (state (Backend.disconnect m 1%positive "tab" (Some 7)))
              1%positive "tab" (Some 7))
     = state (Backend.disconnect m 1%positive "tab" (Some 7)).
Proof.
  intros m.
  assert (H : (entries m "tab" 1%positive <= 1)%nat) by (vm_compute; lia).
  split; [exact H|].
  apply (disconnect_twice_changes_nothing_more m 1%positive "tab" (Some 7) H).
Defined.

Lemma del_user_other (users : gmap Z WebSocket) (user_id : option Z)
    (n : Z) :
  user_id <> Some n -> del_user users user_id !! n = users !! n.
Proof.
  intros Hne. unfold del_user. destruct user_id as [k|]; [|done].
  destruct (truthy (Some k) && bool_decide (is_Some (users !! k))); [|done].
  apply lookup_delete_ne. congruence.
Qed.

(** X15. A call touches its own group and its own user only: after
    [connect] (whatever [accept] does) and after [disconnect] in either
    file, every group other than [client_id] has the list it had, and every
    user other than [user_id] has the entry it had. *)
Theorem calls_are_local (accept : option exn) (self : ConnectionManager)
    (websocket : WebSocket) (client_id : string) (user_id : option Z)
    (g : string) (n : Z) :
  g <> client_id ->
  user_id <> Some n ->
  let c := state (connect accept self websocket client_id user_id) in
  let b := state (Backend.disconnect self websocket client_id user_id) in
  let u := state (Unified.disconnect self websocket client_id user_id) in
  (active_connections c !! g = active_connections self !! g
   /\ user_connections c !! n = user_connections self !! n)
  /\ (active_connections b !! g = active_connections self !! g
      /\ user_connections b !! n = user_connections self !! n)
  /\ (active_connections u !! g = active_connections self !! g
      /\ user_connections u !! n = user_connections self !! n).
Proof.
  intros Hg Hn c b u.
  assert (Hu : (active_connections u !! g = active_connections self !! g
                /\ user_connections u !! n = user_connections self !! n)).
  { subst u. unfold Unified.disconnect. cbn [state active_connections
      user_connections]. split; [|by apply del_user_other].
    destruct (active_connections self !! client_id) as [conns|]; [|done].
    destruct (list_remove websocket conns); [|done].
    by apply store_or_del_other. }
  split; [|split; [|done]].
  - subst c. destruct accept as [e|]; [done|].
    rewrite connect_active, lookup_insert_ne by done. split; [done|].
    unfold connect. cbn [state user_connections].
    destruct user_id as [k|]; [|done].
    destruct (truthy (Some k)); [|done].
    apply lookup_insert_ne. congruence.
  - subst b.
    destruct (disconnect_files_differ self websocket client_id user_id)
      as [[_ ->]| ->]; [done | exact Hu].
Qed.

Lemma calls_are_local_witness :
  let m := state (connect None manager 1%positive "tab" (Some 7)) in
  "tab" <> "phone"
  /\ Some 8 <> Some 7
  /\ active_connections
       (state (Unified.disconnect m 2%positive "phone" (Some 8))) !! "tab"
     = active_connections m !! "tab"
  /\ user_connections
       (state (Unified.disconnect m 2%positive "phone" (Some 8))) !! 7
     = user_connections m !! 7.
Proof.
  intros m.
  assert (H1 : "tab" <> "phone") by discriminate.
  assert (H2 : Some 8 <> Some 7) by discriminate.
  split; [exact H1|]. split; [exact H2|].
  apply (calls_are_local None m 2%positive "phone" (Some 8) "tab" 7 H1 H2).
Defined.

(** ** Whole sessions *)

Lemma entries_connect_any (self : ConnectionManager) (websocket : WebSocket)
    (client_id : string) (user_id : option Z) (g : string) (w : WebSocket) :
  entries (state (connect None self websocket client_id user_id)) g w
  = (entries self g w
     + (if decide (g = client_id /\ w = websocket) then 1 else 0))%nat.
Proof.
  unfold entries. rewrite connect_active.
  destruct (decide (g = client_id)) as [->|Hg].
  - rewrite lookup_insert_eq. simpl. rewrite filter_app, length_app.
    rewrite filter_cons, filter_nil.
    destruct (decide (websocket = w)) as [->|Hw].
    + by rewrite decide_True.
    + rewrite decide_False by (intros [_ ?]; congruence). done.
  - rewrite lookup_insert_ne by done.
    rewrite decide_False by (by intros [? _]). lia.
Qed.

Lemma connect_member (self : ConnectionManager) (websocket : WebSocket)
    (client_id : string) (user_id : option Z) :
  websocket
  ∈ default []
      (active_connections
         (state (connect None self websocket client_id user_id)) !! client_id).
Proof.
  rewrite connect_active, lookup_insert_eq. simpl.
  apply elem_of_app. right. apply list_elem_of_here.
Qed.

Lemma entries_disconnect_any (self : ConnectionManager)
    (websocket : WebSocket) (client_id : string) (user_id : option Z)
    (g : string) (w : WebSocket) :
  websocket ∈ default [] (active_connections self !! client_id) ->
  entries self g w
  = (entries
       (state (Unified.disconnect self websocket client_id user_id)) g w
     + (if decide (g = client_id /\ w = websocket) then 1 else 0))%nat.
Proof.
  intros Hin.
  destruct (unified_disconnect_member self websocket client_id user_id Hin)
    as (conns & conns' & Hg & Hr & Hu & _).
  rewrite Hu. unfold entries. cbn [state active_connections].
  destruct (decide (g = client_id)) as [->|Hne].
  - rewrite store_or_del_default, Hg. simpl.
    rewrite (list_remove_filter _ w _ _ Hr).
    destruct (decide (w = websocket)) as [->|Hw].
    + by rewrite decide_True.
    + by rewrite decide_False by (intros [_ ?]; congruence).
  - rewrite store_or_del_other by done.
    rewrite decide_False by (by intros [? _]). lia.
Qed.

Section Sessions.

Variable disconnect :
  ConnectionManager -> WebSocket -> string -> option Z -> result.

Lemma endpoint_transport_disconnect (self : ConnectionManager)
    (websocket : WebSocket) (client_id : string) (user_id : option Z)
    (script : list turn) :
  snd (receive_loop websocket script) = Raise WebSocketDisconnect ->
  let d := disconnect (state (connect None self websocket client_id user_id))
             websocket client_id user_id in
  registry (endpoint disconnect self None websocket client_id user_id script)
  = state d
  /\ outcome (endpoint disconnect self None websocket client_id user_id script)
     = match raised d with
       | Some e => Propagated e
       | None => Returned
       end.
Proof.
  intros Hx d. unfold endpoint. cbn [raised connect].
  destruct (receive_loop websocket script) as [log x]. simpl in Hx.
  by subst x.
Qed.

End Sessions.

(** X5. A session that ends because the transport reports the disconnect
    ([WebSocketDisconnect] from [receive_json] or [send_json]) returns
    normally in both files and leaves every websocket with as many entries
    in every group as it had before the session: the entry [connect] added
    is the one [disconnect] takes out. *)
Theorem session_keeps_entry_counts (self : ConnectionManager)
    (websocket : WebSocket) (client_id : string) (user_id : option Z)
    (script : list turn) (g : string) (w : WebSocket) :
  snd (receive_loop websocket script) = Raise WebSocketDisconnect ->
  let b := Backend.websocket_endpoint self None websocket client_id user_id
             script in
  let u := Unified.websocket_endpoint self None websocket client_id script in
  (outcome b = Returned /\ entries (registry b) g w = entries self g w)
  /\ (outcome u = Returned /\ entries (registry u) g w = entries self g w).
Proof.
  intros Hx b u. subst b u.
  unfold Backend.websocket_endpoint, Unified.websocket_endpoint.
  destruct (endpoint_transport_disconnect Backend.disconnect self websocket
              client_id user_id script Hx) as [-> ->].
  destruct (endpoint_transport_disconnect Unified.disconnect self websocket
              client_id None script Hx) as [-> ->].
  pose proof (connect_member self websocket client_id user_id) as Hb.
  pose proof (connect_member self websocket client_id None) as Hu.
  destruct (unified_disconnect_member _ websocket client_id user_id Hb)
    as (_ & _ & _ & _ & _ & ->).
  split; (split; [done|]).
  - pose proof (entries_disconnect_any _ websocket client_id user_id g w Hb)
      as E.
    rewrite entries_connect_any in E. lia.
  - pose proof (entries_disconnect_any _ websocket client_id None g w Hu)
      as E.
    rewrite entries_connect_any in E. lia.
Qed.

Lemma session_keeps_entry_counts_witness :
  let script := [{| received := Ok (JDict [("type", JStr "ping")]);
                    utcnow_isoformat := "2024-05-17T09:30:00";
                    sent := None |};
                 {| received := Err WebSocketDisconnect;
                    utcnow_isoformat := "2024-05-17T09:30:01";
                    sent := None |}] in
  let m := state (connect None manager 1%positive "tab" (Some 7)) in
  snd (receive_loop 1%positive script) = Raise WebSocketDisconnect
  /\ outcome (Backend.websocket_endpoint m None 1%positive "tab" (Some 7)
                script) = Returned
  /\ entries (registry (Backend.websocket_endpoint m None 1%positive "tab"
                          (Some 7) script)) "tab" 1%positive
     = entries m "tab" 1%positive.
Proof.
  intros script m.
  assert (H : snd (receive_loop 1%positive script) = Raise WebSocketDisconnect)
    by reflexivity.
  split; [exact H|].
  apply (session_keeps_entry_counts m 1%positive "tab" (Some 7) script
           "tab" 1%positive H).
Defined.

(** X6. No session of [src/main.py] ever changes [user_connections]: its
    endpoint calls the manager without [user_id], so whatever [accept] does
    and however the loop ends, the user table after the session is the one
    before it. *)
Theorem unified_session_keeps_users (self : ConnectionManager)
    (accept : option exn) (websocket : WebSocket) (client_id : string)
    (script : list turn) :
  user_connections
    (registry (Unified.websocket_endpoint self accept websocket client_id
                 script))
  = user_connections self.
Proof.
  unfold Unified.websocket_endpoint, endpoint.
  destruct accept as [e|]; [done|]. cbn [raised connect].
  destruct (receive_loop websocket script) as [log x].
  by destruct x as [|[]].
Qed.

(** ** The loop on its own *)

Lemma served_cons (websocket : WebSocket) (t : turn) (script : list turn)
    (r : json) :
  served t = Some r ->
  receive_loop websocket (t :: script)
  = (SendJson websocket r :: fst (receive_loop websocket script),
     snd (receive_loop websocket script)).
Proof.
  unfold served, reply_to. cbn [receive_loop].
  destruct (received t) as [[]|]; try done.
  destruct (sent t); [done|]. intros [= <-]. cbn [get].
  by destruct (receive_loop websocket script).
Qed.

(** X7. On traffic it can serve (every message a dictionary, every
    [send_json] returning) the loop sends exactly one reply per message, in
    the order the messages came, and does not end: after the last scripted
    message it is awaiting the next one. *)
Theorem loop_replies_in_order (websocket : WebSocket) (script : list turn)
    (replies : list json) :
  Forall2 (fun t r => served t = Some r) script replies ->
  receive_loop websocket script = (SendJson websocket <$> replies, Awaiting).
Proof.
  induction 1 as [|t r script replies Ht _ IH]; [done|].
  rewrite (served_cons _ _ _ _ Ht), IH. done.
Qed.

Lemma loop_replies_in_order_witness :
  let script := [{| received := Ok (JDict [("type", JStr "foo")]);
                    utcnow_isoformat := "2024-05-17T09:30:00";
                    sent := None |};
                 {| received := Ok (JDict [("type", JStr "ping")]);
                    utcnow_isoformat := "2024-05-17T09:30:01";
                    sent := None |}] in
  let replies := [JDict [("type", JStr "echo");
                         ("data", JDict [("type", JStr "foo")])];
                  JDict [("type", JStr "pong");
                         ("timestamp", JStr "2024-05-17T09:30:01")]] in
  Forall2 (fun t r => served t = Some r) script replies
  /\ receive_loop 1%positive script
     = (SendJson 1%positive <$> replies, Awaiting).
Proof.
  intros script replies.
  assert (H : Forall2 (fun t r => served t = Some r) script replies).
  { repeat constructor. }
  split; [exact H|].
  apply (loop_replies_in_order 1%positive script replies H).
Defined.

(** X8. A message that decodes to something other than a dictionary (a
    list, a string, a number, [null]) ends the loop with [AttributeError]:
    nothing is sent in reply to it, and no later message is read. *)
Theorem non_object_message_ends_loop (websocket : WebSocket)
    (pre : list turn) (t : turn) (post : list turn) (data : json) :
  snd (receive_loop websocket pre) = Awaiting ->
  received t = Ok data ->
  (forall items, data <> JDict items) ->
  receive_loop websocket (pre ++ t :: post)
  = (fst (receive_loop websocket pre), Raise AttributeError).
Proof.
  intros Hpre Hr Hno. rewrite receive_loop_app by done.
  cbn [receive_loop]. rewrite Hr.
  destruct data; try (by rewrite app_nil_r).
  by destruct (Hno items).
Qed.

Lemma non_object_message_ends_loop_witness :
  let t := {| received := Ok (JList [JInt 1; JInt 2]);
              utcnow_isoformat := "2024-05-17T09:30:00";
              sent := None |} in
  let later := {| received := Ok (JDict [("type", JStr "ping")]);
                  utcnow_isoformat := "2024-05-17T09:30:01";
                  sent := None |} in
  snd (receive_loop 1%positive []) = Awaiting
  /\ received t = Ok (JList [JInt 1; JInt 2])
  /\ (forall items, JList [JInt 1; JInt 2] <> JDict items)
  /\ receive_loop 1%positive ([] ++ t :: [later])
     = (fst (receive_loop 1%positive []), Raise AttributeError).
Proof.
  intros t later.
  assert (H : forall items, JList [JInt 1; JInt 2] <> JDict items)
    by discriminate.
  split; [reflexivity|]. split; [reflexivity|]. split; [exact H|].
  apply (non_object_message_ends_loop 1%positive [] t [later]
           (JList [JInt 1; JInt 2]) eq_refl eq_refl H).
Defined.

(** * The database object, start-up and the health route *)

(** X9. A [connect] that fails on a [Database] that is connected leaves
    [is_connected] true: the flag is only ever set, never cleared, by
    [connect], while from the second step on [self.client] is already the
    new client. What comes out is [DatabaseError] whenever the cause was
    an [Exception]. *)
Theorem failed_reconnect_stays_connected (env : Db.connect_env)
    (self : Db.Database) (step : Db.connect_step) (k : raise_kind) :
  Db.is_connected self = true ->
  Db.failure env = Some (step, k) ->
  let after := fst (Db.connect env self) in
  Db.is_connected after = true
  /\ (step <> Db.NewClient -> Db.client after = Some (Db.new_client env))
  /\ snd (Db.connect env self)
     = Some (if is_Exception k then DatabaseError else k).
Proof.
  intros Hc Hf after. subst after. unfold Db.connect. rewrite Hf.
  unfold Db.is_connected in *. apply andb_true_iff in Hc as [Hflag Hcl].
  destruct step; simpl; rewrite ?Hflag, ?Hcl; repeat split; done.
Qed.

Lemma failed_reconnect_stays_connected_witness :
  let self := fst (Db.connect {| Db.new_client := 1%positive;
                                 Db.failure := None |} Db.init) in
  let env := {| Db.new_client := 2%positive;
                Db.failure := Some (Db.IsMaster, OtherException) |} in
  Db.is_connected self = true
  /\ Db.failure env = Some (Db.IsMaster, OtherException)
  /\ Db.is_connected (fst (Db.connect env self)) = true.
Proof.
  intros self env. split; [reflexivity|]. split; [reflexivity|].
  apply (failed_reconnect_stays_connected env self Db.IsMaster OtherException);
    reflexivity.
Defined.

Lemma db_disconnect_closed (self : Db.Database) :
  Db.is_connected (fst (Db.disconnect None self)) = false.
Proof.
  unfold Db.disconnect, Db.is_connected.
  destruct self as [[c|] d flag]; simpl; [done|].
  by rewrite andb_false_r.
Qed.

(** X10. In both files [lifespan] calls [db.disconnect()] exactly once and
    as its last step, whatever happened before: [connect] failed at any
    step, something was thrown in at the [yield], or the application shut
    down normally. When [client.close()] returns, the [db] it leaves is
    not connected. *)
Theorem lifespan_always_disconnects (env : Db.connect_env)
    (body close : option raise_kind) :
  let b := BackendApp.lifespan env body close in
  let u := UnifiedApp.lifespan env body close in
  (last (steps b) = Some DbDisconnect
   /\ length (List.filter (fun s => bool_decide (s = DbDisconnect)) (steps b))
      = 1%nat
   /\ (close = None ->
       exists d, db_global b = Some d /\ Db.is_connected d = false))
  /\ (last (steps u) = Some DbDisconnect
      /\ length (List.filter (fun s => bool_decide (s = DbDisconnect))
                   (steps u))
         = 1%nat
      /\ (close = None ->
          exists d, db_global u = Some d /\ Db.is_connected d = false)).
Proof.
  intros b u. subst b u. unfold BackendApp.lifespan, UnifiedApp.lifespan.
  unfold asynccontextmanager. cbn [steps db_global].
  unfold BackendApp.lifespan_generator, UnifiedApp.lifespan_generator.
  destruct (Db.connect env Db.init) as [d1 r].
  destruct (Db.disconnect close d1) as [d2 r2] eqn:Hd.
  assert (Hclosed : close = None -> Db.is_connected d2 = false).
  { intros ->. pose proof (db_disconnect_closed d1) as H.
    by rewrite Hd in H. }
  destruct r; simpl; (split; (split; [done|]; split; [done|]));
    intros Hc; exists d2; split; try done; by apply Hclosed.
Qed.


(** X12. [health_check] does not look at what [db.ping()] returns. Once
    [db] is set, whatever the ping command did (a failed one makes [ping]
    return [False]) the component ["database"] reads ["connected"] and the
    status ["healthy"], in both files; only an unset [db] shows, as
    ["disconnected"], with status ["partial"] in the backend and still
    ["healthy"] in [src/main.py]. *)
Theorem health_check_ignores_ping (d : Db.Database)
    (command : option raise_kind) (now : string) :
  (get (BackendApp.health_check (Some d) command now) "status"
   = Ok (Some (JStr "healthy"))
   /\ get_in (BackendApp.health_check (Some d) command now)
        "components" "database"
      = Some (JStr "connected"))
  /\ (get (UnifiedApp.health_check (Some d) command now) "status"
      = Ok (Some (JStr "healthy"))
      /\ get_in (UnifiedApp.health_check (Some d) command now)
           "components" "database"
         = Some (JStr "connected"))
  /\ (get (BackendApp.health_check None command now) "status"
      = Ok (Some (JStr "partial"))
      /\ get_in (BackendApp.health_check None command now)
           "components" "database"
         = Some (JStr "disconnected"))
  /\ (get (UnifiedApp.health_check None command now) "status"
      = Ok (Some (JStr "healthy"))
      /\ get_in (UnifiedApp.health_check None command now)
           "components" "database"
         = Some (JStr "disconnected")).
Proof. repeat split. Qed.

(** * The validators of [Settings] *)

Lemma split_commas_cons (v : string) :
  exists piece pieces, split_commas v = piece :: pieces.
Proof.
  destruct v as [|c rest]; simpl; [by eexists _, _|].
  case_bool_decide; [by eexists _, _|].
  destruct (split_commas rest); by eexists _, _.
Qed.

Lemma split_commas_length (v : string) :
  length (split_commas v) = S (commas v).
Proof.
  induction v as [|c rest IH]; simpl; [done|].
  case_bool_decide; simpl; [by rewrite IH|].
  destruct (split_commas_cons rest) as (piece & pieces & E).
  rewrite E in *. simpl in *. done.
Qed.

Lemma split_commas_join (v : string) :
  String.concat "," (split_commas v) = v.
Proof.
  induction v as [|c rest IH]; simpl; [done|].
  destruct (split_commas_cons rest) as (piece & pieces & E).
  rewrite E in *. case_bool_decide as Hc.
  - subst c. by rewrite <- IH.
  - rewrite <- IH. by destruct pieces.
Qed.

Lemma split_commas_clean (v : string) :
  Forall (fun piece => commas piece = 0%nat) (split_commas v).
Proof.
  induction v as [|c rest IH]; simpl; [by repeat constructor|].
  case_bool_decide as Hc; [by constructor|].
  destruct (split_commas_cons rest) as (piece & pieces & E).
  rewrite E in *. apply Forall_cons in IH as [Hp Hps].
  constructor; [|done]. simpl. by rewrite bool_decide_eq_false_2.
Qed.

(** X13. Given a string, [parse_allowed_hosts] returns the stripped pieces
    that lie between its commas: one host more than there are commas, so
    never an empty list (the empty string gives one host); no piece holds
    a comma, and the pieces joined by commas are the string again. Whatever
    [strip] does is applied to each piece and to nothing else. *)
Theorem allowed_hosts_are_the_pieces (strip : string -> string)
    (v : string) :
  let pieces := split_commas v in
  Config.parse_allowed_hosts strip (JStr v)
  = JList ((fun piece => JStr (strip piece)) <$> pieces)
  /\ length pieces = S (commas v)
  /\ Forall (fun piece => commas piece = 0%nat) pieces
  /\ String.concat "," pieces = v.
Proof.
  intros pieces. split; [done|]. split; [apply split_commas_length|].
  split; [apply split_commas_clean | apply split_commas_join].
Qed.

Section AdminIds.

Variable strip : string -> string.
Variable int : string -> option Z.

Lemma ints_ok (pieces : list string) (ns : list json) :
  Config.ints strip int pieces = Ok ns ->
  Forall2 (fun id n => option_map JInt (int (strip id)) = Some n) pieces ns.
Proof.
  revert ns. induction pieces as [|id pieces IH]; intros ns; simpl.
  - intros [= <-]. constructor.
  - destruct (int (strip id)) as [n|] eqn:E; [|done].
    destruct (Config.ints strip int pieces) as [ms|e]; [|done].
    intros [= <-]. constructor; [by rewrite E | by apply IH].
Qed.

Lemma ints_err (pieces : list string) (e : exn) :
  Config.ints strip int pieces = Err e ->
  e = ValueError /\ exists id, In id pieces /\ int (strip id) = None.
Proof.
  induction pieces as [|id pieces IH]; simpl; [done|].
  destruct (int (strip id)) as [n|] eqn:E.
  - destruct (Config.ints strip int pieces) as [ms|e']; [done|].
    intros [= <-]. destruct (IH eq_refl) as (-> & id' & Hin & Hid).
    split; [done|]. exists id'. by split; [right|].
  - intros [= <-]. split; [done|]. exists id. by split; [left|].
Qed.

End AdminIds.

(** X14. Given a string, [parse_admin_ids] looks only at the pieces
    between the commas that are not blank after [strip]: blank pieces are
    skipped, not parsed. Either it raises [ValueError], and then one of the
    kept pieces is not an integer for [int]; or it returns a list with
    exactly one integer per kept piece, in their order. *)
Theorem admin_ids_of_kept_pieces (strip : string -> string)
    (int : string -> option Z) (v : string) :
  let kept := Config.kept strip (split_commas v) in
  (Config.parse_admin_ids strip int (JStr v) = Err ValueError
   /\ exists id, In id (split_commas v) /\ strip id <> ""
                 /\ int (strip id) = None)
  \/ (exists ns,
        Config.parse_admin_ids strip int (JStr v) = Ok (JList ns)
        /\ Forall2 (fun id n => option_map JInt (int (strip id)) = Some n)
             kept ns).
Proof.
  intros kept. unfold Config.parse_admin_ids. fold kept.
  destruct (Config.ints strip int kept) as [ns|e] eqn:E.
  - right. exists ns. split; [done|]. by apply ints_ok.
  - left. destruct (ints_err strip int kept e E) as (-> & id & Hin & Hid).
    split; [done|]. exists id. subst kept. unfold Config.kept in Hin.
    apply filter_In in Hin as [Hin Hk]. split; [done|]. split; [|done].
    apply negb_true_iff in Hk. by apply bool_decide_eq_false in Hk.
Qed.

(** * Registering the same websocket again *)

Lemma accept_on_again (accepted : gset WebSocket) (websocket : WebSocket)
    (transport : option exn) :
  accept_on ({[websocket]} ∪ accepted) websocket transport
  = Some RuntimeError.
Proof. unfold accept_on. rewrite decide_True; [done | set_solver]. Qed.

Lemma unified_disconnect_shrinks (self : ConnectionManager)
    (websocket : WebSocket) (client_id : string) (user_id : option Z)
    (g : string) (w : WebSocket) :
  (entries (state (Unified.disconnect self websocket client_id user_id)) g w
   <= entries self g w)%nat.
Proof.
  destruct (decide (websocket
                    ∈ default [] (active_connections self !! client_id)))
    as [Hin|Hn].
  - pose proof (entries_disconnect_any self websocket client_id user_id g w
                  Hin) as E.
    lia.
  - destruct (disconnect_absent_state self websocket client_id user_id Hn)
      as [-> _].
    done.
Qed.

Lemma backend_disconnect_shrinks (self : ConnectionManager)
    (websocket : WebSocket) (client_id : string) (user_id : option Z)
    (g : string) (w : WebSocket) :
  (entries (state (Backend.disconnect self websocket client_id user_id)) g w
   <= entries self g w)%nat.
Proof.
  destruct (disconnect_files_differ self websocket client_id user_id)
    as [[_ ->]| ->]; [done | apply unified_disconnect_shrinks].
Qed.

Section OneEntry.

Variable disconnect :
  ConnectionManager -> WebSocket -> string -> option Z -> result.

Hypothesis disconnect_shrinks :
  forall self websocket client_id user_id g w,
    (entries (state (disconnect self websocket client_id user_id)) g w
     <= entries self g w)%nat.

Lemma serve_call_one_entry_each (s : server) (c : call) :
  one_entry_each s -> one_entry_each (serve_call disconnect s c).
Proof.
  intros Hinv g w. destruct (Hinv g w) as [Hle Hzero].
  destruct c as [transport websocket client_id user_id
                |websocket client_id user_id]; cbn [serve_call serving accepted].
  - unfold accept_on.
    destruct (decide (websocket ∈ accepted s)) as [Hacc|Hnew]; [done|].
    destruct transport as [e|]; [done|].
    rewrite entries_connect_any.
    destruct (decide (g = client_id /\ w = websocket)) as [[-> ->]|Hother].
    + destruct (Hinv client_id websocket) as [_ Hz].
      rewrite (Hz Hnew). split; [lia|]. set_solver.
    + rewrite Nat.add_0_r. split; [done|].
      intros Hw. apply Hzero. set_solver.
  - pose proof (disconnect_shrinks (serving s) websocket client_id user_id
                  g w) as Hs.
    split; [lia|]. intros Hw. specialize (Hzero Hw). lia.
Qed.

Lemma serve_one_entry_each (calls : list call) (s : server) :
  one_entry_each s -> one_entry_each (serve disconnect s calls).
Proof.
  revert s. induction calls as [|c calls IH]; intros s Hinv; [done|].
  apply IH. by apply serve_call_one_entry_each.
Qed.

End OneEntry.

Lemma boot_one_entry_each : one_entry_each boot.
Proof. intros g w. split; [|intros _]; vm_compute; lia. Qed.

(** C2. From the start of the process, after any calls, two [connect]
    calls with the same websocket and the same [client_id] leave at most
    one entry for it in [active_connections[client_id]], in both files and
    whatever the transport does: the list is appended to only after
    [accept()] has returned, and on one websocket it returns at most once.
    The same holds throughout: no registry the process can reach holds a
    websocket twice in a group. *)
Theorem connect_twice_leaves_one_entry (calls : list call)
    (t1 t2 : option exn) (websocket : WebSocket) (client_id : string)
    (u1 u2 : option Z) (g : string) (w : WebSocket) :
  let twice := calls ++ [Register t1 websocket client_id u1;
                         Register t2 websocket client_id u2] in
  ((entries (serving (serve Backend.disconnect boot twice))
      client_id websocket <= 1)%nat
   /\ (entries (serving (serve Unified.disconnect boot twice))
         client_id websocket <= 1)%nat)
  /\ ((entries (serving (serve Backend.disconnect boot calls)) g w <= 1)%nat
      /\ (entries (serving (serve Unified.disconnect boot calls)) g w
          <= 1)%nat).
Proof.
  intros twice.
  pose proof (fun cs => serve_one_entry_each Backend.disconnect
                          backend_disconnect_shrinks cs boot
                          boot_one_entry_each) as HB.
  pose proof (fun cs => serve_one_entry_each Unified.disconnect
                          unified_disconnect_shrinks cs boot
                          boot_one_entry_each) as HU.
  repeat split.
  - apply (HB twice).
  - apply (HU twice).
  - apply (HB calls).
  - apply (HU calls).
Qed.
